(** * Bookii: a shallow embedding of the library view and the PDF reader

    The development follows the TypeScript sources:
    - [types.ts]      the [Book] record;
    - [App.tsx]       upload ([handleFileUpload]), [loadLibrary] and the
                      search / marked-only filter ([filteredBooks]);
    - [BookCard.tsx]  the card shown for one record;
    - [PdfReader.tsx] the reader: page tracking, navigation, zoom, the
                      controls toggle and the per-page render life cycle.

    Strings are sequences of code units below 256 (the Latin-1 range of
    UTF-16), numbers that hold page indices and timestamps are integers,
    and the zoom scale is an IEEE 754 binary64 value.  The search filter
    is given a second time over UTF-16 code units, with the engine's
    [toLowerCase] as a parameter. *)

From Stdlib Require Import ZArith Lia Bool Ascii String.
From Stdlib Require Import Floats.SpecFloat.
From stdpp Require Import gmap strings list fin_maps.

Local Open Scope Z_scope.

(** ** JavaScript strings *)

Module JsString.

(** [String.prototype.toLowerCase] on one code unit below 256: the
    letters A-Z and the Latin-1 capitals U+00C0-U+00DE (U+00D7, the
    multiplication sign, excepted) move up by 32; nothing else changes. *)
Definition lowerUnit (c : ascii) : ascii :=
  let n := N_of_ascii c in
  if ((65 <=? n) && (n <=? 90)
      || (192 <=? n) && (n <=? 222) && negb (n =? 215))%N
  then ascii_of_N (n + 32)
  else c.

Fixpoint toLowerCase (s : string) : string :=
  match s with
  | EmptyString => EmptyString
  | String c r => String (lowerUnit c) (toLowerCase r)
  end.

(** [s.startsWith(p)] *)
Fixpoint startsWith (s p : string) : bool :=
  match p, s with
  | EmptyString, _ => true
  | String _ _, EmptyString => false
  | String a p', String b s' => Ascii.eqb a b && startsWith s' p'
  end.

(** [s.includes(t)]: [t] occurs in [s] at some index. *)
Fixpoint includes (s t : string) : bool :=
  startsWith s t ||
  match s with
  | EmptyString => false
  | String _ r => includes r t
  end.

(** A string is truthy when it is not empty. *)
Definition truthy (s : string) : bool :=
  match s with EmptyString => false | String _ _ => true end.

(** The character class [[^/.]]. *)
Definition notSlashDot (c : ascii) : bool :=
  negb (Ascii.eqb c "/") && negb (Ascii.eqb c ".").

Fixpoint allNotSlashDot (s : string) : bool :=
  match s with
  | EmptyString => true
  | String c r => notSlashDot c && allNotSlashDot r
  end.

(** Does [/\.[^/.]+$/] match the whole of [s]? *)
Definition isExtension (s : string) : bool :=
  match s with
  | String c r => Ascii.eqb c "." && truthy r && allNotSlashDot r
  | EmptyString => false
  end.

(** [s.replace(/\.[^/.]+$/, "")]: the regular expression is tried at
    each index from the left; the first match is dropped (it runs to
    the end of the input, since the pattern is anchored with [$]). *)
Fixpoint stripExtension (s : string) : string :=
  if isExtension s then EmptyString
  else match s with
       | EmptyString => EmptyString
       | String c r => String c (stripExtension r)
       end.

(** [n.toString(36)] for a non-negative integer. *)
Definition digit36 (d : Z) : ascii :=
  if d <? 10 then ascii_of_N (Z.to_N (48 + d))
  else ascii_of_N (Z.to_N (87 + d)).

Fixpoint toString36_aux (fuel : nat) (n : Z) (acc : string) : string :=
  match fuel with
  | O => acc
  | S fuel' =>
      let acc' := String (digit36 (n mod 36)) acc in
      if n / 36 =? 0 then acc' else toString36_aux fuel' (n / 36) acc'
  end.

Definition toString36 (n : Z) : string :=
  toString36_aux (S (Z.to_nat (Z.log2 n))) n EmptyString.

End JsString.

(** ** The data model ([types.ts]) *)

(** A [File] (a [Blob] with a name): its name, MIME type and bytes. *)
Record File := mkFile {
  file_name : string;
  file_type : string;
  file_bytes : list Byte.byte
}.

(** [interface Book]. The fields marked [?] in the source are optional.
    [lastPage] is declared [number]; it is optional here because a record
    read back from the store may lack it, which the reader guards against
    with [book.lastPage || 1]. *)
Record Book := mkBook {
  id : string;
  title : string;
  fileName : string;
  blob : File;
  thumbnail : option string;
  lastPage : option Z;
  addedAt : Z;
  summary : option string;
  isMarked : option bool
}.

(** Truthiness of an optional boolean, string and number. *)
Definition truthyFlag (o : option bool) : bool :=
  match o with Some b => b | None => false end.

Definition truthyText (o : option string) : bool :=
  match o with Some s => JsString.truthy s | None => false end.

Definition truthyNum (o : option Z) : bool :=
  match o with Some n => negb (n =? 0) | None => false end.

(** ** The record store *)

Module Store.

(** Modelled from the spec: [services/dbService] is not among the
    sources.  The spec describes one table of book records keyed by
    identifier, with list-all and insert-or-replace operations. *)
Definition saveBook (b : Book) (db : gmap string Book) : gmap string Book :=
  <[id b := b]> db.

(** Modelled from the spec: list-all, in no particular order. *)
Definition getAllBooks (db : gmap string Book) : list Book :=
  (map_to_list db).*2.

(** Every record is filed under its own identifier. *)
Definition keyed (db : gmap string Book) : Prop :=
  ∀ k b, db !! k = Some b → id b = k.

End Store.

(** ** The library view ([App.tsx]) *)

Module App.

(** The two [alert] texts of the upload handler. *)
Inductive Message :=
| MsgChooseValidPdf     (* "Vui long chon file PDF hop le." *)
| MsgCannotAddBook.     (* "Khong the them sach. Bo nho trinh duyet co the da day." *)

Inductive LogLine :=
| LogLoadLibraryFailed  (* console.error "Failed to load library:" *)
| LogNoThumbnail        (* console.warn  "Khong the tao anh thu nho" *)
| LogNoSummary          (* console.warn  "AI khong the tom tat noi dung" *)
| LogUploadFailed.      (* console.error "Upload that bai:" *)

(** What the handler does to the outside, in order. *)
Inductive Effect :=
| Alert (m : Message)
| Console (l : LogLine)
| Call_generateThumbnail (f : File)
| Call_extractTextForSummary (f : File)
| Call_getBookSummary (text : string)
| Call_saveBook (b : Book)
| Call_getAllBooks.

(** The component state ([useState] hooks and the file input). *)
Record State := mkState {
  books : list Book;
  currentBook : option Book;
  isUploading : bool;
  searchQuery : string;
  showOnlyMarked : bool;
  fileInputValue : string
}.

Record World := mkWorld {
  ui : State;
  db : gmap string Book;
  trace : list Effect
}.

(** The result of an awaited call: a value, or a thrown exception. *)
Inductive Result (A : Type) :=
| Returned (a : A)
| Thrown.
Arguments Returned {A} a.
Arguments Thrown {A}.

(** What the environment answers during one upload. *)
Record Env := mkEnv {
  randomUUID : option string;   (* [None]: crypto.randomUUID is not a function *)
  mathRandom36 : string;        (* Math.random().toString(36).substring(2) *)
  dateNow_id : Z;               (* Date.now() read by the fallback identifier *)
  dateNow_record : Z;           (* Date.now() read by the record literal *)
  thumbnailOf : File → Result string;
  textOf : File → Result string;
  summaryOf : string → Result string;
  storeWriteFails : bool;
  storeReadFails : bool
}.

(** Computations over the world that may throw. *)
Definition M (A : Type) : Type := World → Result A * World.

Definition ret {A} (a : A) : M A := λ w, (Returned a, w).

Definition bind {A B} (m : M A) (k : A → M B) : M B :=
  λ w, match m w with
       | (Returned a, w') => k a w'
       | (Thrown, w') => (Thrown, w')
       end.

Definition throw {A} : M A := λ w, (Thrown, w).

(** [try { m } catch { h }] *)
Definition tryCatch {A} (m h : M A) : M A :=
  λ w, match m w with
       | (Returned a, w') => (Returned a, w')
       | (Thrown, w') => h w'
       end.

(** [try { m } finally { f }] where [f] does not throw. *)
Definition tryFinally {A} (m : M A) (f : M unit) : M A :=
  λ w, match m w with
       | (r, w') => (r, snd (f w'))
       end.

Declare Scope app_scope.
Delimit Scope app_scope with app.
Notation "x <~ m ;; k" := (bind m (λ x, k))
  (at level 100, m at next level, right associativity) : app_scope.
Notation "m ;; k" := (bind m (λ _, k))
  (at level 100, right associativity) : app_scope.
Local Open Scope app_scope.

Definition emit (e : Effect) : M unit :=
  λ w, (Returned tt, mkWorld (ui w) (db w) (trace w ++ [e])).

Definition modifyUi (f : State → State) : M unit :=
  λ w, (Returned tt, mkWorld (f (ui w)) (db w) (trace w)).

Definition setBooks (bs : list Book) : M unit :=
  modifyUi (λ s, mkState bs (currentBook s) (isUploading s)
                         (searchQuery s) (showOnlyMarked s) (fileInputValue s)).

Definition setCurrentBook (b : option Book) : M unit :=
  modifyUi (λ s, mkState (books s) b (isUploading s)
                         (searchQuery s) (showOnlyMarked s) (fileInputValue s)).

Definition setIsUploading (u : bool) : M unit :=
  modifyUi (λ s, mkState (books s) (currentBook s) u
                         (searchQuery s) (showOnlyMarked s) (fileInputValue s)).

Definition clearFileInput : M unit :=
  modifyUi (λ s, mkState (books s) (currentBook s) (isUploading s)
                         (searchQuery s) (showOnlyMarked s) EmptyString).

Definition alert (m : Message) : M unit := emit (Alert m).
Definition console (l : LogLine) : M unit := emit (Console l).

Definition liftResult {A} (r : Result A) : M A := λ w, (r, w).

(** The awaited services. *)
Definition generateThumbnail (env : Env) (f : File) : M string :=
  emit (Call_generateThumbnail f) ;; liftResult (thumbnailOf env f).

Definition extractTextForSummary (env : Env) (f : File) : M string :=
  emit (Call_extractTextForSummary f) ;; liftResult (textOf env f).

Definition getBookSummary (env : Env) (text : string) : M string :=
  emit (Call_getBookSummary text) ;; liftResult (summaryOf env text).

Definition saveBook (env : Env) (b : Book) : M unit :=
  emit (Call_saveBook b) ;;
  if storeWriteFails env then throw
  else λ w, (Returned tt, mkWorld (ui w) (Store.saveBook b (db w)) (trace w)).

Definition getAllBooks (env : Env) : M (list Book) :=
  emit Call_getAllBooks ;;
  if storeReadFails env then throw
  else λ w, (Returned (Store.getAllBooks (db w)), w).

(** [loadLibrary] *)
Definition loadLibrary (env : Env) : M unit :=
  tryCatch
    (storedBooks <~ getAllBooks env ;;
     setBooks storedBooks)
    (console LogLoadLibraryFailed).

(** The identifier expression of [handleFileUpload]. *)
Definition freshId (env : Env) : string :=
  match randomUUID env with
  | Some u => u
  | None => mathRandom36 env +:+ JsString.toString36 (dateNow_id env)
  end.

Definition pdfMime : string := "application/pdf".

(** The record literal [newBook]. *)
Definition newBook (env : Env) (file : File)
    (thumb sum : option string) : Book :=
  {| id := freshId env;
     title := JsString.stripExtension (file_name file);
     fileName := file_name file;
     blob := file;
     thumbnail := thumb;
     lastPage := Some 1;
     addedAt := dateNow_record env;
     summary := sum;
     isMarked := Some false |}.

(** [handleFileUpload]; [file] is [event.target.files?.[0]]. *)
Definition handleFileUpload (env : Env) (file : option File) : M unit :=
  match file with
  | None => ret tt
  | Some file =>
      if negb (String.eqb (file_type file) pdfMime) then
        alert MsgChooseValidPdf
      else
        setIsUploading true ;;
        tryFinally
          (tryCatch
             (thumb <~ tryCatch
                         (t <~ generateThumbnail env file ;; ret (Some t))
                         (console LogNoThumbnail ;; ret None) ;;
              sum <~ tryCatch
                       (previewText <~ extractTextForSummary env file ;;
                        if JsString.truthy previewText
                        then s <~ getBookSummary env previewText ;; ret (Some s)
                        else ret None)
                       (console LogNoSummary ;; ret None) ;;
              saveBook env (newBook env file thumb sum) ;;
              loadLibrary env)
             (console LogUploadFailed ;; alert MsgCannotAddBook))
          (setIsUploading false ;; clearFileInput)
  end.

(** [filteredBooks] *)
Definition matchesSearch (query : string) (b : Book) : bool :=
  JsString.includes (JsString.toLowerCase (title b))
                    (JsString.toLowerCase query).

Definition matchesMarked (onlyMarked : bool) (b : Book) : bool :=
  if onlyMarked then truthyFlag (isMarked b) else true.

Definition filteredBooks (bs : list Book) (query : string)
    (onlyMarked : bool) : list Book :=
  List.filter (λ b, matchesSearch query b && matchesMarked onlyMarked b) bs.

(** The cards of the grid, in display order; each card opens its book. *)
Definition displayed (s : State) : list Book :=
  filteredBooks (books s) (searchQuery s) (showOnlyMarked s).

(** [onClick={() => setCurrentBook(book)}] of a displayed card. *)
Definition openBook (b : Book) : M unit := setCurrentBook (Some b).

(** [markedCount], the number on the marked-only button. *)
Definition markedCount (bs : list Book) : nat :=
  length (List.filter (λ b, truthyFlag (isMarked b)) bs).

(** The service and store calls among the effects. *)
Definition isCall (e : Effect) : bool :=
  match e with
  | Alert _ | Console _ => false
  | _ => true
  end.

End App.

(** ** The card of one record ([BookCard.tsx]) *)

Module BookCard.

Inductive Preview :=
| Image (src : string)
| NoPreview.

Record Card := mkCard {
  preview : Preview;
  heading : string;
  summaryTooltip : option string;
  pageLabel : option Z;
  markedBadge : bool
}.

Definition render (b : Book) : Card :=
  {| preview := match thumbnail b with
                | Some src => if JsString.truthy src then Image src else NoPreview
                | None => NoPreview
                end;
     heading := title b;
     summaryTooltip := if truthyText (summary b) then summary b else None;
     pageLabel := match lastPage b with
                  | Some n => if 1 <? n then Some n else None
                  | None => None
                  end;
     markedBadge := truthyFlag (isMarked b) |}.

End BookCard.

(** ** JavaScript numbers used as the zoom scale: IEEE 754 binary64 *)

Module Num.

Definition prec : Z := 53.
Definition emax : Z := 1024.

Definition add : spec_float → spec_float → spec_float := SFadd prec emax.
Definition sub : spec_float → spec_float → spec_float := SFsub prec emax.
Definition leb : spec_float → spec_float → bool := SFleb.
Definition ltb : spec_float → spec_float → bool := SFltb.

(** An integer as a binary64 value. *)
Definition ofZ (n : Z) : spec_float := binary_normalize prec emax n 0 false.

(** The literals of [PdfReader.tsx]: the binary64 values nearest to the
    decimals written in the source. *)
Definition lit_0_2 : spec_float := S754_finite false 7205759403792794 (-55).
Definition lit_0_4 : spec_float := S754_finite false 7205759403792794 (-54).
Definition lit_1_0 : spec_float := S754_finite false 4503599627370496 (-52).
Definition lit_3_0 : spec_float := S754_finite false 6755399441055744 (-51).
Definition lit_1_2 : spec_float := S754_finite false 5404319552844595 (-52).

Definition isNegZero (x : spec_float) : bool :=
  match x with S754_zero true => true | _ => false end.

(** [Math.min(a, b)] and [Math.max(a, b)]: NaN if either is NaN, and
    -0 is below +0. *)
Definition min (a b : spec_float) : spec_float :=
  match SFcompare a b with
  | None => S754_nan
  | Some Lt => a
  | Some Gt => b
  | Some Eq => if isNegZero b then b else a
  end.

Definition max (a b : spec_float) : spec_float :=
  match SFcompare a b with
  | None => S754_nan
  | Some Lt => b
  | Some Gt => a
  | Some Eq => if isNegZero a then b else a
  end.

Definition mul : spec_float → spec_float → spec_float := SFmul prec emax.

(** [Math.round(x)] as an integer, for a finite [x]: the floor of
    [x + 1/2], taken exactly.  NaN and the infinities have none. *)
Definition round (x : spec_float) : option Z :=
  match x with
  | S754_zero _ => Some 0
  | S754_finite sign m e =>
      let n := if sign then Z.neg m else Z.pos m in
      Some (if 0 <=? e then n * 2 ^ e
            else (2 * n + 2 ^ (- e)) / 2 ^ (1 - e))
  | _ => None
  end.

End Num.

(** ** The reader ([PdfReader.tsx], component [PdfReader]) *)

Module Reader.

(** The document handle of the rendering library: only its page count
    is read. *)
Record PdfDoc := mkDoc { doc_numPages : Z }.

Record State := mkState {
  book : Book;
  numPages : Z;
  currentPage : Z;
  loading : bool;
  scale : spec_float;
  showControls : bool;
  pdfDoc : option PdfDoc;
  initialScrollDone : bool
}.

Inductive Effect :=
| ScrollIntoView (page : Z) (smooth : bool)
| Call_updateLastPage (bookId : string) (page : Z)
| Call_renderPage (page : Z) (atScale : spec_float)
| ConsoleError
| Call_onClose.

(** [book.lastPage || 1] *)
Definition lastPageOr1 (b : Book) : Z :=
  match lastPage b with
  | Some n => if n =? 0 then 1 else n
  | None => 1
  end.

(** The [useState] initial values. *)
Definition init (b : Book) : State :=
  {| book := b; numPages := 0; currentPage := lastPageOr1 b;
     loading := true; scale := Num.lit_1_0; showControls := true;
     pdfDoc := None; initialScrollDone := false |}.

Definition setCurrentPage (p : Z) (s : State) : State :=
  mkState (book s) (numPages s) p (loading s) (scale s)
          (showControls s) (pdfDoc s) (initialScrollDone s).

Definition setScale (f : spec_float → spec_float) (s : State) : State :=
  mkState (book s) (numPages s) (currentPage s) (loading s) (f (scale s))
          (showControls s) (pdfDoc s) (initialScrollDone s).

Definition setShowControls (v : bool) (s : State) : State :=
  mkState (book s) (numPages s) (currentPage s) (loading s) (scale s)
          v (pdfDoc s) (initialScrollDone s).

Definition setInitialScrollDone (s : State) : State :=
  mkState (book s) (numPages s) (currentPage s) (loading s) (scale s)
          (showControls s) (pdfDoc s) true.

(** The page numbers of the mounted [PdfPage] components:
    [Array.from({ length: numPages }, (_, i) => i + 1)], rendered when
    [loading] is false and [pdfDoc] is set. *)
Definition pageNumbers (s : State) : list Z :=
  if loading s then []
  else match pdfDoc s with
       | Some _ => List.map (λ i, Z.of_nat i + 1) (seq 0 (Z.to_nat (numPages s)))
       | None => []
       end.

(** The props each mounted page receives: its number and the scale. *)
Definition pageProps (s : State) : list (Z * spec_float) :=
  List.map (λ k, (k, scale s)) (pageNumbers s).

(** [document.getElementById(`page-${k}`)] finds an element. *)
Definition hasPageElement (s : State) (k : Z) : bool :=
  bool_decide (k ∈ pageNumbers s).

(** [loadPdf], on success and on failure. *)
Definition loadPdf_resolved (pdf : PdfDoc) (s : State) : State :=
  mkState (book s) (doc_numPages pdf) (currentPage s) false (scale s)
          (showControls s) (Some pdf) (initialScrollDone s).

Definition loadPdf_rejected (s : State) : State * list Effect :=
  (mkState (book s) (numPages s) (currentPage s) false (scale s)
           (showControls s) (pdfDoc s) (initialScrollDone s),
   [ConsoleError]).

(** The initial-scroll effect. *)
Definition initialScrollTarget (s : State) : Z := lastPageOr1 (book s).

Definition initialScroll (s : State) : State * list Effect :=
  if negb (loading s) && bool_decide (is_Some (pdfDoc s))
     && negb (initialScrollDone s)
  then if hasPageElement s (initialScrollTarget s)
       then (setInitialScrollDone s,
             [ScrollIntoView (initialScrollTarget s) false])
       else (s, [])
  else (s, []).

(** [handlePageVisible] *)
Definition handlePageVisible (pageNumber : Z) (s : State)
    : State * list Effect :=
  (setCurrentPage pageNumber s,
   [Call_updateLastPage (id (book s)) pageNumber]).

(** The [IntersectionObserver] callback of page [pageNumber]; an entry
    is its [isIntersecting] flag. *)
Fixpoint observerCallback (pageNumber : Z) (entries : list bool)
    (s : State) : State * list Effect :=
  match entries with
  | [] => (s, [])
  | isIntersecting :: rest =>
      if isIntersecting then
        let '(s1, e1) := handlePageVisible pageNumber s in
        let '(s2, e2) := observerCallback pageNumber rest s1 in
        (s2, e1 ++ [Call_renderPage pageNumber (scale s)] ++ e2)
      else observerCallback pageNumber rest s
  end.

(** [scrollToPage] *)
Definition scrollTarget (pageNumber : Z) (s : State) : Z :=
  Z.max 1 (Z.min pageNumber (numPages s)).

Definition scrollToPage (pageNumber : Z) (s : State) : list Effect :=
  let target := scrollTarget pageNumber s in
  if hasPageElement s target then [ScrollIntoView target true] else [].

(** [zoomIn], [zoomOut], [resetZoom]; the first two pass [setScale] an
    updater of the previous value. *)
Definition zoomInUpdater (prev : spec_float) : spec_float :=
  Num.min (Num.add prev Num.lit_0_2) Num.lit_3_0.

Definition zoomOutUpdater (prev : spec_float) : spec_float :=
  Num.max (Num.sub prev Num.lit_0_2) Num.lit_0_4.

Definition zoomIn (s : State) : State := setScale zoomInUpdater s.
Definition zoomOut (s : State) : State := setScale zoomOutUpdater s.
Definition resetZoom (s : State) : State := setScale (λ _, Num.lit_1_0) s.

(** Where a click can land. *)
Inductive Target :=
| ScrollContainer       (* the scroll container itself *)
| LoadingPlaceholder    (* the spinner shown while loading *)
| PagesColumn           (* the column that wraps the pages, around them *)
| InsidePage (page : Z) (* a [.pdf-page-container] or anything in it *)
| HeaderBar
| FooterBar
| BtnClose
| BtnZoomOut
| BtnZoomIn
| BtnResetZoom
| BtnPrev
| BtnNext.

(** Is the target in the document? *)
Definition present (s : State) (t : Target) : bool :=
  match t with
  | LoadingPlaceholder => loading s
  | PagesColumn => negb (loading s)
  | InsidePage k => hasPageElement s k
  | _ => true
  end.

(** The header and the footer are siblings of the scroll container; the
    rest lies inside it, so a click there bubbles to its [onClick]. *)
Definition insideScrollContainer (t : Target) : bool :=
  match t with
  | ScrollContainer | LoadingPlaceholder | PagesColumn | InsidePage _ => true
  | _ => false
  end.

(** [(e.target as HTMLElement).closest('.pdf-page-container')] is found. *)
Definition closestPageContainer (t : Target) : bool :=
  match t with InsidePage _ => true | _ => false end.

(** [e.target === e.currentTarget], the handler being the scroll
    container's. *)
Definition isCurrentTarget (t : Target) : bool :=
  match t with ScrollContainer => true | _ => false end.

(** [toggleControls] *)
Definition toggleControls (target : Target) (s : State) : State :=
  if isCurrentTarget target || closestPageContainer target
  then setShowControls (negb (showControls s)) s
  else s.

(** The [disabled] attributes of the footer buttons. *)
Definition prevDisabled (s : State) : bool := currentPage s <=? 1.
Definition nextDisabled (s : State) : bool := currentPage s >=? numPages s.

(** A click: a disabled button receives none. *)
Definition click (t : Target) (s : State) : State * list Effect :=
  if negb (present s t) then (s, [])
  else if insideScrollContainer t then (toggleControls t s, [])
  else match t with
       | BtnClose => (s, [Call_onClose])
       | BtnZoomOut => (zoomOut s, [])
       | BtnZoomIn => (zoomIn s, [])
       | BtnResetZoom => (resetZoom s, [])
       | BtnPrev =>
           if prevDisabled s then (s, [])
           else (s, scrollToPage (currentPage s - 1) s)
       | BtnNext =>
           if nextDisabled s then (s, [])
           else (s, scrollToPage (currentPage s + 1) s)
       | _ => (s, [])
       end.

(** What can happen to an open reader. *)
Inductive Event :=
| Loaded (pdf : PdfDoc)
| LoadFailed
| Intersect (page : Z) (entries : list bool)
| Click (t : Target)
| LastPageWriteSettled (ok : bool).

(** One event.  The promise of [updateLastPage] is dropped by
    [handlePageVisible] (no [await], [then] or [catch]): when it settles,
    nothing in the reader runs.  An observer exists only for a mounted
    page. *)
Definition step (s : State) (ev : Event) : State * list Effect :=
  match ev with
  | Loaded pdf => initialScroll (loadPdf_resolved pdf s)
  | LoadFailed => loadPdf_rejected s
  | Intersect k entries =>
      if hasPageElement s k then observerCallback k entries s else (s, [])
  | Click t => click t s
  | LastPageWriteSettled _ => (s, [])
  end.

Fixpoint run (s : State) (evs : list Event) : State * list Effect :=
  match evs with
  | [] => (s, [])
  | ev :: rest =>
      let '(s1, e1) := step s ev in
      let '(s2, e2) := run s1 rest in
      (s2, e1 ++ e2)
  end.

(** The zoom label of the footer, [Math.round(scale * 100)]. *)
Definition zoomPercent (s : State) : option Z :=
  Num.round (Num.mul (scale s) (Num.ofZ 100)).

End Reader.

(** ** The render life cycle of one page ([PdfReader.tsx], [renderPage]) *)

Module PdfPage.

(** A render task of the rendering library (an external package): as the
    reader uses it, a task draws onto the canvas until it finishes or is
    cancelled. *)
Inductive Status :=
| Running      (* drawing onto the canvas *)
| Cancelled    (* [cancel()] reached it while it was running *)
| Finished     (* its promise resolved *)
| Rejected.    (* the library refused to start it *)

Record RenderTask := mkTask {
  atScale : spec_float;
  status : Status
}.

(** One [PdfPage] component: [renderTaskRef], the tasks [page.render]
    has created for its canvas (oldest first), the calls of [renderPage]
    suspended at [await pdfDoc.getPage(pageNumber)] with the scale their
    closure holds (oldest first), the scale the canvas was last sized
    for, and the scale of the last render that ran to completion. *)
Record State := mkState {
  renderTaskRef : option nat;
  tasks : list RenderTask;
  awaitingPage : list spec_float;
  canvasScale : option spec_float;
  painted : option spec_float
}.

Definition init : State := mkState None [] [] None None.

Inductive Event :=
| Trigger (s : spec_float)  (* [renderPage()] is called; its closure holds [s] *)
| PageReady                 (* the oldest suspended call resumes *)
| Finish (task : nat).      (* a task draws its last operator *)

Definition isRunning (t : RenderTask) : bool :=
  match status t with Running => true | _ => false end.

(** [task.cancel()]: only a running task is affected. *)
Definition cancel (t : RenderTask) : RenderTask :=
  if isRunning t then mkTask (atScale t) Cancelled else t.

Definition finish (t : RenderTask) : RenderTask :=
  if isRunning t then mkTask (atScale t) Finished else t.

(** The number of tasks drawing onto the canvas. *)
Definition runningCount (s : State) : nat :=
  length (List.filter isRunning (tasks s)).

Section Library.

(** Whether the rendering library refuses to start a render on a
    canvas that another render is still using. *)
Variable exclusiveCanvas : bool.

(** [renderPage] up to its first [await], for a mounted page ([pdfDoc]
    and [canvasRef.current] are set): cancel the task the ref holds, then
    wait for the page. *)
Definition renderPage_begin (scale : spec_float) (s : State) : State :=
  let tasks' := match renderTaskRef s with
                | Some i => alter cancel i (tasks s)
                | None => tasks s
                end in
  mkState (renderTaskRef s) tasks' (awaitingPage s ++ [scale])
          (canvasScale s) (painted s).

(** [renderPage] after [await pdfDoc.getPage], the canvas having a 2d
    context: size the canvas, start the render and store its task in the
    ref. *)
Definition renderPage_resume (s : State) : State :=
  match awaitingPage s with
  | [] => s
  | scale :: rest =>
      let st := if exclusiveCanvas && existsb isRunning (tasks s)
                then Rejected else Running in
      mkState (Some (length (tasks s)))
              (tasks s ++ [mkTask scale st])
              rest (Some scale) (painted s)
  end.

Definition taskFinished (i : nat) (s : State) : State :=
  match tasks s !! i with
  | Some t =>
      if isRunning t
      then mkState (renderTaskRef s) (alter finish i (tasks s))
                   (awaitingPage s) (canvasScale s) (Some (atScale t))
      else s
  | None => s
  end.

Definition step (s : State) (ev : Event) : State :=
  match ev with
  | Trigger scale => renderPage_begin scale s
  | PageReady => renderPage_resume s
  | Finish i => taskFinished i s
  end.

Definition run (evs : list Event) : State := foldl step init evs.

End Library.

(** The scale of the last trigger. *)
Definition lastRequested (evs : list Event) : option spec_float :=
  last (omap (λ ev, match ev with Trigger s => Some s | _ => None end) evs).

(** Nothing is pending and nothing is drawing. *)
Definition quiescent (s : State) : bool :=
  bool_decide (awaitingPage s = []) && (runningCount s =? 0)%nat.

End PdfPage.

(** ** The search filter over UTF-16 strings ([App.tsx], [filteredBooks]) *)

Module Utf16.

(** A JavaScript string as the sequence of its UTF-16 code units, each a
    number below 65536.  [toLowerCase] of the engine may change the number
    of units, which a unit-by-unit model cannot show. *)

(** [s.startsWith(p)] *)
Fixpoint startsWith (s p : list N) : bool :=
  match p, s with
  | [], _ => true
  | _ :: _, [] => false
  | a :: p', b :: s' => N.eqb a b && startsWith s' p'
  end.

(** [s.includes(t)]: [t] occurs in [s] at some index. *)
Fixpoint includes (s t : list N) : bool :=
  startsWith s t ||
  match s with
  | [] => false
  | _ :: r => includes r t
  end.

(** The code units of a string of the library view. *)
Fixpoint ofString (s : string) : list N :=
  match s with
  | EmptyString => []
  | String c r => N_of_ascii c :: ofString r
  end.

(** [interface Book], its strings as code units. *)
Record Book := mkBook {
  id : list N;
  title : list N;
  fileName : list N;
  blob : File;
  thumbnail : option (list N);
  lastPage : option Z;
  addedAt : Z;
  summary : option (list N);
  isMarked : option bool
}.

Section Engine.

(** [String.prototype.toLowerCase] of the engine. *)
Variable toLowerCase : list N → list N.

(** [filteredBooks] *)
Definition matchesSearch (query : list N) (b : Book) : bool :=
  includes (toLowerCase (title b)) (toLowerCase query).

Definition matchesMarked (onlyMarked : bool) (b : Book) : bool :=
  if onlyMarked then truthyFlag (isMarked b) else true.

Definition filteredBooks (bs : list Book) (query : list N)
    (onlyMarked : bool) : list Book :=
  List.filter (λ b, matchesSearch query b && matchesMarked onlyMarked b) bs.

End Engine.

(** What [toLowerCase] makes of one code unit, for the units this
    development follows: a unit below 256 becomes one unit (A-Z and the
    Latin-1 capitals move up by 32), and U+0130, the capital I with a dot
    above, becomes the two units U+0069 U+0307.  Any other unit is copied,
    which is what the engine does for a unit that has no lower case and
    not for the rest. *)
Definition lowerLatin1 (u : N) : N :=
  N_of_ascii (JsString.lowerUnit (ascii_of_N u)).

Definition lowerOf (u : N) : list N :=
  if (u <? 256)%N then [lowerLatin1 u]
  else if (u =? 304)%N then [105; 775]%N
  else [u].

(** [toLowerCase] by that table: the engine's function on every string
    whose units are below 256 or U+0130. *)
Definition tableLowerCase (s : list N) : list N := flat_map lowerOf s.

End Utf16.

(** ** Vocabulary of the statements *)

Module Spec.
Import JsString App.


(** The optional fields of the new record, as the services answer. *)
Definition thumbnailResult (env : Env) (file : File) : option string :=
  match thumbnailOf env file with
  | Returned t => Some t
  | Thrown => None
  end.

Definition summaryResult (env : Env) (file : File) : option string :=
  match textOf env file with
  | Returned text =>
      if JsString.truthy text
      then match summaryOf env text with
           | Returned s => Some s
           | Thrown => None
           end
      else None
  | Thrown => None
  end.

Definition uploaded (env : Env) (file : File) : Book :=
  newBook env file (thumbnailResult env file) (summaryResult env file).

(** The scale lies in [[0.4, 3.0]]. *)
Definition inRange (x : spec_float) : bool :=
  Num.leb Num.lit_0_4 x && Num.leb x Num.lit_3_0.

(** Equality of representations (not of values: it tells +0 from -0). *)
Definition sameFloat (x y : spec_float) : bool :=
  match x, y with
  | S754_zero a, S754_zero b => Bool.eqb a b
  | S754_infinity a, S754_infinity b => Bool.eqb a b
  | S754_nan, S754_nan => true
  | S754_finite a m e, S754_finite b n f =>
      Bool.eqb a b && Pos.eqb m n && Z.eqb e f
  | _, _ => false
  end.

Definition memFloat (x : spec_float) (l : list spec_float) : bool :=
  existsb (sameFloat x) l.

(** The scales reached from 1.0: breadth-first closure under the two
    zoom steps. *)
Fixpoint closeOrbit (fuel : nat) (work seen : list spec_float)
    : list spec_float :=
  match fuel, work with
  | S fuel', x :: work' =>
      let a := Reader.zoomInUpdater x in
      let b := Reader.zoomOutUpdater x in
      let seen1 := if memFloat a seen then seen else seen ++ [a] in
      let work1 := if memFloat a seen then work' else work' ++ [a] in
      let seen2 := if memFloat b seen1 then seen1 else seen1 ++ [b] in
      let work2 := if memFloat b seen1 then work1 else work1 ++ [b] in
      closeOrbit fuel' work2 seen2
  | _, _ => seen
  end.

Definition zoomOrbit : list spec_float :=
  Eval vm_compute in closeOrbit 200 [Num.lit_1_0] [Num.lit_1_0].

(** What holds of every scale on the orbit: its successors are on the
    orbit, it is in range, and the clamped steps read as follows. *)
Definition orbitCheck (x : spec_float) : bool :=
  memFloat (Reader.zoomInUpdater x) zoomOrbit
  && memFloat (Reader.zoomOutUpdater x) zoomOrbit
  && inRange x
  && sameFloat (Reader.zoomInUpdater x)
       (if Num.ltb Num.lit_3_0 (Num.add x Num.lit_0_2)
        then Num.lit_3_0 else Num.add x Num.lit_0_2)
  && sameFloat (Reader.zoomOutUpdater x)
       (if Num.ltb (Num.sub x Num.lit_0_2) Num.lit_0_4
        then Num.lit_0_4 else Num.sub x Num.lit_0_2).

(** The progress writes among the effects of the reader. *)
Definition writesOf (es : list Reader.Effect) : list (string * Z) :=
  omap (λ e, match e with
             | Reader.Call_updateLastPage i k => Some (i, k)
             | _ => None
             end) es.

(** The pages reported visible by a run of observer callbacks, one per
    intersecting entry. *)
Definition visiblePages (obs : list (Z * list bool)) : list Z :=
  flat_map (λ o, List.map (λ _, fst o) (List.filter (λ x, x) (snd o))) obs.

Definition observerEvents (obs : list (Z * list bool)) : list Reader.Event :=
  List.map (λ o, Reader.Intersect (fst o) (snd o)) obs.

(** The header, the footer and their buttons. *)
Definition onControls (t : Reader.Target) : bool :=
  negb (Reader.insideScrollContainer t).

(** A click on [t] flips the controls flag. *)
Definition togglesControls (s : Reader.State) (t : Reader.Target) : bool :=
  negb (Bool.eqb (Reader.showControls (fst (Reader.step s (Reader.Click t))))
                 (Reader.showControls s)).

(** The controls claim as the specification words it: the flag flips
    exactly for a tap on the background that is neither on a page nor on
    the controls. *)
Definition tapClaimAsStated : Prop :=
  ∀ s t, Reader.present s t = true →
    (togglesControls s t = true
     ↔ Reader.isCurrentTarget t = true
       ∧ Reader.closestPageContainer t = false
       ∧ onControls t = false).

(** The render claim as the specification words it, for a library that
    does or does not guard its canvas: at no point do two renders draw on
    the page's canvas, and once nothing is pending the canvas shows the
    render of the last requested scale. *)
Definition renderClaimAsStated (exclusiveCanvas : bool) : Prop :=
  ∀ evs,
    (PdfPage.runningCount (PdfPage.run exclusiveCanvas evs) ≤ 1)%nat
    ∧ (PdfPage.quiescent (PdfPage.run exclusiveCanvas evs) = true →
       PdfPage.lastRequested evs ≠ None →
       PdfPage.painted (PdfPage.run exclusiveCanvas evs)
       = PdfPage.lastRequested evs).

(** Runs of the page in which every call of [renderPage] gets its page
    before the next call starts: a render (trigger, then page ready) or
    the end of a task. *)
Inductive SerialStep :=
| Render (scale : spec_float)
| Done (task : nat).

Definition serialEvents (steps : list SerialStep) : list PdfPage.Event :=
  flat_map (λ st, match st with
                  | Render scale => [PdfPage.Trigger scale; PdfPage.PageReady]
                  | Done i => [PdfPage.Finish i]
                  end) steps.

(** What such runs maintain: nothing waits for its page; until the first
    render the page is as it started, and afterwards only the newest task
    can be drawing, the ref holds it, it was started at the last requested
    scale, and once it has finished the canvas shows that scale. *)
Definition serialInv (evs : list PdfPage.Event) (s : PdfPage.State) : Prop :=
  PdfPage.awaitingPage s = []
  ∧ ((PdfPage.tasks s = [] ∧ PdfPage.renderTaskRef s = None
      ∧ PdfPage.lastRequested evs = None)
     ∨ ∃ olds t,
         PdfPage.tasks s = olds ++ [t]
         ∧ Forall (λ o, PdfPage.isRunning o = false) olds
         ∧ PdfPage.renderTaskRef s = Some (length olds)
         ∧ PdfPage.lastRequested evs = Some (PdfPage.atScale t)
         ∧ (PdfPage.status t = PdfPage.Running
            ∨ PdfPage.status t = PdfPage.Finished
              ∧ PdfPage.painted s = Some (PdfPage.atScale t))).

(** The title has a stretch that lower-cases to what the query
    lower-cases to. *)
Definition containsUpToCase (lower : list N → list N)
    (title query : list N) : Prop :=
  ∃ before stretch after,
    title = before ++ stretch ++ after ∧ lower stretch = lower query.

(** The search claim as the specification words it, for a given
    lower-casing: the displayed books are exactly the stored books whose
    title contains the query up to letter case and, with the toggle on,
    whose marked flag is set. *)
Definition searchClaimAsStated (lower : list N → list N) : Prop :=
  ∀ bs query onlyMarked b,
    b ∈ Utf16.filteredBooks lower bs query onlyMarked
    ↔ b ∈ bs
      ∧ containsUpToCase lower (Utf16.title b) query
      ∧ (onlyMarked = false ∨ Utf16.isMarked b = Some true).


End Spec.

(** ** Sample inputs *)

Module Sample.

Definition env : App.Env :=
  {| App.randomUUID := Some "1b9d6bcd-bbfd-4b2d-9b5d-ab8dfbbd4bed"%string;
     App.mathRandom36 := "k3j5x8q2z1"%string;
     App.dateNow_id := 1700000000000;
     App.dateNow_record := 1700000000250;
     App.thumbnailOf := λ _, App.Thrown;
     App.textOf := λ _, App.Returned "Chapter one"%string;
     App.summaryOf := λ _, App.Thrown;
     App.storeWriteFails := false;
     App.storeReadFails := false |}.

Definition pdf : File := mkFile "Clean Code.pdf" "application/pdf" [].
Definition image : File := mkFile "cover.png" "image/png" [].

Definition world : App.World :=
  App.mkWorld (App.mkState [] None false EmptyString false "cover.png") ∅ [].

(** A stored record whose [lastPage] is 0. *)
Definition book : Book :=
  mkBook "b1" "Clean Code" "Clean Code.pdf" pdf None (Some 0) 1700000000250
         None (Some false).

(** A reader on a loaded document of three pages. *)
Definition reader : Reader.State :=
  fst (Reader.step (Reader.init book) (Reader.Loaded (Reader.mkDoc 3))).

(** A first render still waiting for its page when the scale changes. *)
Definition overlap : list PdfPage.Event :=
  [PdfPage.Trigger Num.lit_1_0; PdfPage.Trigger Num.lit_1_2;
   PdfPage.PageReady; PdfPage.PageReady].

(** The store refuses the write; the store cannot be read. *)
Definition envWriteFails : App.Env :=
  {| App.randomUUID := None;
     App.mathRandom36 := "k3j5x8q2z1"%string;
     App.dateNow_id := 1700000000000;
     App.dateNow_record := 1700000000250;
     App.thumbnailOf := λ _, App.Returned "data:image/png;base64,AAAA"%string;
     App.textOf := λ _, App.Returned EmptyString;
     App.summaryOf := λ _, App.Returned "A summary"%string;
     App.storeWriteFails := true;
     App.storeReadFails := false |}.

Definition envReadFails : App.Env :=
  {| App.randomUUID := Some "1b9d6bcd-bbfd-4b2d-9b5d-ab8dfbbd4bed"%string;
     App.mathRandom36 := "k3j5x8q2z1"%string;
     App.dateNow_id := 1700000000000;
     App.dateNow_record := 1700000000250;
     App.thumbnailOf := λ _, App.Returned "data:image/png;base64,AAAA"%string;
     App.textOf := λ _, App.Thrown;
     App.summaryOf := λ _, App.Returned "A summary"%string;
     App.storeWriteFails := false;
     App.storeReadFails := true |}.

(** Stored records read at page 2 and at page 9. *)
Definition bookAtPage (n : Z) : Book :=
  mkBook "b2" "Refactoring" "Refactoring.pdf" pdf None (Some n) 1700000000250
         None (Some true).



(** A book titled with the capital I with a dot above, then "stanbul". *)
Definition istanbul : Utf16.Book :=
  Utf16.mkBook [98; 51]%N [304; 115; 116; 97; 110; 98; 117; 108]%N
               [304; 46; 112; 100; 102]%N pdf None (Some 1) 1700000000250
               None None.

End Sample.

(** ** Vocabulary of the further statements *)

Module Behaviour.
Import App.

(** The effects of an upload of a PDF up to the store write, in order, as
    the services' answers determine them. *)
Definition enrichmentEffects (env : Env) (file : File) : list Effect :=
  [Call_generateThumbnail file]
  ++ match thumbnailOf env file with
     | Returned _ => []
     | Thrown => [Console LogNoThumbnail]
     end
  ++ [Call_extractTextForSummary file]
  ++ match textOf env file with
     | Returned text =>
         if JsString.truthy text
         then Call_getBookSummary text
              :: match summaryOf env text with
                 | Returned _ => []
                 | Thrown => [Console LogNoSummary]
                 end
         else []
     | Thrown => [Console LogNoSummary]
     end
  ++ [Call_saveBook (Spec.uploaded env file)].

(** All the effects of such an upload. *)
Definition uploadEffects (env : Env) (file : File) : list Effect :=
  enrichmentEffects env file
  ++ (if storeWriteFails env
      then [Console LogUploadFailed; Alert MsgCannotAddBook]
      else Call_getAllBooks
           :: if storeReadFails env then [Console LogLoadLibraryFailed] else []).

(** The store after such an upload, and the list the view holds. *)
Definition uploadStore (env : Env) (file : File) (db : gmap string Book)
    : gmap string Book :=
  if storeWriteFails env then db else Store.saveBook (Spec.uploaded env file) db.

Definition uploadBooks (env : Env) (file : File) (w : World) : list Book :=
  if storeWriteFails env || storeReadFails env then books (ui w)
  else Store.getAllBooks (uploadStore env file (db w)).

(** The calls of an upload of a PDF. *)
Definition uploadCalls (env : Env) (file : File) : list Effect :=
  [Call_generateThumbnail file; Call_extractTextForSummary file]
  ++ match textOf env file with
     | Returned text =>
         if JsString.truthy text then [Call_getBookSummary text] else []
     | Thrown => []
     end
  ++ [Call_saveBook (Spec.uploaded env file)]
  ++ (if storeWriteFails env then [] else [Call_getAllBooks]).

(** The scroll of the initial-scroll effect (the navigation scrolls are
    smooth). *)
Definition isInitialScroll (e : Reader.Effect) : bool :=
  match e with Reader.ScrollIntoView _ false => true | _ => false end.

(** An effect that reaches the pages or the store. *)
Definition touchesDocument (e : Reader.Effect) : bool :=
  match e with
  | Reader.ScrollIntoView _ _ | Reader.Call_updateLastPage _ _
  | Reader.Call_renderPage _ _ => true
  | _ => false
  end.

Definition isLoaded (ev : Reader.Event) : bool :=
  match ev with Reader.Loaded _ => true | _ => false end.

(** A click that lands on the scroll container or inside a page. *)
Definition togglingClick (ev : Reader.Event) : bool :=
  match ev with
  | Reader.Click t => Reader.isCurrentTarget t || Reader.closestPageContainer t
  | _ => false
  end.

(** What holds of the zoom label at every scale on the orbit: a multiple
    of 20 between 40 and 300 that moves by 20 with each step and stops at
    the bounds; a step never moves the scale the wrong way, and leaves it
    where it is only at the bound. *)
Definition labelOf (x : spec_float) : option Z :=
  Num.round (Num.mul x (Num.ofZ 100)).

Definition labelCheck (x : spec_float) : bool :=
  match labelOf x, labelOf (Reader.zoomInUpdater x),
        labelOf (Reader.zoomOutUpdater x) with
  | Some p, Some up, Some down =>
      (p mod 20 =? 0) && (40 <=? p) && (p <=? 300)
      && (up =? Z.min (p + 20) 300) && (down =? Z.max (p - 20) 40)
      && Num.leb x (Reader.zoomInUpdater x)
      && Num.leb (Reader.zoomOutUpdater x) x
      && Bool.eqb (Spec.sameFloat (Reader.zoomInUpdater x) x)
                  (Spec.sameFloat x Num.lit_3_0)
      && Bool.eqb (Spec.sameFloat (Reader.zoomOutUpdater x) x)
                  (Spec.sameFloat x Num.lit_0_4)
  | _, _, _ => false
  end.

End Behaviour.

(** * Properties *)

Import Spec.

(** ** Strings *)

Section StringFacts.
Import JsString.

Lemma startsWith_empty (s : string) : startsWith s EmptyString = true.
Proof. by destruct s. Qed.

Lemma includes_unfold (s t : string) :
  includes s t
  = startsWith s t
    || match s with EmptyString => false | String _ r => includes r t end.
Proof. by destruct s. Qed.





End StringFacts.

(** ** Upload *)

Section Upload.
Import App.

Lemma pdfMime_eqb (file : File) :
  file_type file = pdfMime → String.eqb (file_type file) pdfMime = true.
Proof. intros ->. apply String.eqb_refl. Qed.

Ltac no_alert :=
  let m := fresh in let H := fresh in
  intros m H;
  repeat (apply elem_of_cons in H as [H|H]; [discriminate H|]);
  by apply elem_of_nil in H.

(** A PDF whose record the store accepts: the handler returns, the
    record is in the store, no alert is raised, and the list shown is
    the store's when it can be read. *)
Lemma handleFileUpload_saved (env : Env) (file : File) (w : World) :
  file_type file = pdfMime → storeWriteFails env = false →
  ∃ es bs,
    handleFileUpload env (Some file) w
    = (Returned tt,
       mkWorld (mkState bs (currentBook (ui w)) false (searchQuery (ui w))
                        (showOnlyMarked (ui w)) EmptyString)
               (Store.saveBook (uploaded env file) (db w))
               (trace w ++ es))
    ∧ (∀ m, Alert m ∉ es)
    ∧ (storeReadFails env = false →
       bs = Store.getAllBooks (Store.saveBook (uploaded env file) (db w))).
Proof.
  intros Hpdf Hsave.
  unfold handleFileUpload, uploaded, thumbnailResult, summaryResult.
  rewrite (pdfMime_eqb _ Hpdf).
  unfold tryFinally, tryCatch, bind, loadLibrary, getAllBooks, saveBook,
    generateThumbnail, extractTextForSummary, getBookSummary, liftResult,
    setIsUploading, setBooks, clearFileInput, console, alert, emit,
    modifyUi, ret, throw, bind.
  rewrite Hsave. simpl.
  destruct (thumbnailOf env file) as [t|]; simpl;
    (destruct (textOf env file) as [text|]; simpl;
     [destruct (JsString.truthy text); simpl;
      [destruct (summaryOf env text) as [sm|]; simpl|]|]);
    (destruct (storeReadFails env); simpl;
     rewrite <- ?app_assoc; simpl;
     eexists _, _; (split; [reflexivity|split; [no_alert|done]])).
Qed.

Lemma saved_lookup (b : Book) (db : gmap string Book) :
  Store.saveBook b db !! id b = Some b.
Proof. apply lookup_insert_eq. Qed.


Lemma listed_of_lookup (b : Book) (db : gmap string Book) (k : string) :
  db !! k = Some b → b ∈ Store.getAllBooks db.
Proof.
  intros H. unfold Store.getAllBooks.
  apply list_elem_of_fmap. exists (k, b). split; [done|].
  by apply elem_of_map_to_list.
Qed.


End Upload.

Section LibraryClaims.
Import App.

(** C5. A file whose MIME type is not [application/pdf] is rejected: the
    handler raises the alert and returns at once.  No service is called,
    nothing is written, and neither the store nor the view state
    changes. *)
Theorem upload_rejects_non_pdf (env : Env) (file : File) (w : World) :
  file_type file ≠ pdfMime →
  handleFileUpload env (Some file) w
  = (Returned tt,
     mkWorld (ui w) (db w) (trace w ++ [Alert MsgChooseValidPdf])).
Proof.
  intros Hne. unfold handleFileUpload.
  destruct (String.eqb (file_type file) pdfMime) eqn:E.
  - by apply String.eqb_eq in E.
  - reflexivity.
Qed.


(** C6. An upload of a PDF goes through whatever thumbnail generation,
    text extraction and summarization do: no alert is raised, the record
    is stored, with no thumbnail when the thumbnail service throws and no
    summary when text extraction or the summarizer throws.  The record is
    in the list the view holds, is displayed under the empty query, has a
    card (with the placeholder when there is no thumbnail), and opening
    it makes it the current book. *)
Theorem upload_survives_enrichment_failure
    (env : Env) (file : File) (w : World) :
  file_type file = pdfMime → storeWriteFails env = false →
  storeReadFails env = false →
  ∃ b w' es,
    handleFileUpload env (Some file) w = (Returned tt, w')
    ∧ trace w' = trace w ++ es ∧ (∀ m, Alert m ∉ es)
    ∧ db w' !! id b = Some b
    ∧ fileName b = file_name file
    ∧ (thumbnailOf env file = Thrown → thumbnail b = None)
    ∧ (textOf env file = Thrown → summary b = None)
    ∧ (∀ text, textOf env file = Returned text →
               summaryOf env text = Thrown → summary b = None)
    ∧ b ∈ books (ui w')
    ∧ b ∈ filteredBooks (books (ui w')) EmptyString false
    ∧ (thumbnail b = None →
       BookCard.preview (BookCard.render b) = BookCard.NoPreview)
    ∧ currentBook (ui (snd (openBook b w'))) = Some b.
Proof.
  intros Hpdf Hsave Hread.
  destruct (handleFileUpload_saved env file w Hpdf Hsave)
    as (es & bs & Hrun & Hquiet & Hbs).
  specialize (Hbs Hread).
  assert (uploaded env file ∈ bs) as Hin.
  { rewrite Hbs. eapply listed_of_lookup, saved_lookup. }
  eexists (uploaded env file), _, es. split; [exact Hrun|]. simpl.
  split; [done|]. split; [done|]. split; [apply saved_lookup|].
  split; [done|].
  split. { intros H. unfold thumbnailResult. by rewrite H. }
  split. { intros H. unfold summaryResult. by rewrite H. }
  split.
  { intros text Ht Hs. unfold summaryResult. rewrite Ht, Hs.
    by destruct (JsString.truthy text). }
  split; [done|].
  split.
  { unfold filteredBooks. apply list_elem_of_In, filter_In.
    split; [by apply list_elem_of_In|].
    unfold matchesSearch, matchesMarked.
    change (JsString.toLowerCase EmptyString) with EmptyString.
    by rewrite includes_unfold, startsWith_empty. }
  split; [|done].
  unfold BookCard.render. simpl. by intros ->.
Qed.

End LibraryClaims.

(** ** Search over UTF-16 strings *)

Section SearchClaim.
Import Utf16.

Lemma startsWith16_app (p r : list N) : startsWith (p ++ r) p = true.
Proof.
  induction p as [|a p IH]; simpl.
  - by destruct r.
  - by rewrite N.eqb_refl, IH.
Qed.

Lemma startsWith16_inv (s p : list N) :
  startsWith s p = true → ∃ r, s = p ++ r.
Proof.
  revert s; induction p as [|a p IH]; intros s H.
  - by exists s.
  - destruct s as [|b s]; simpl in H; [done|].
    apply andb_true_iff in H as [Hab Hs].
    apply N.eqb_eq in Hab as ->.
    destruct (IH _ Hs) as [r ->]. by exists r.
Qed.

Lemma includes16_unfold (s t : list N) :
  includes s t
  = startsWith s t
    || match s with [] => false | _ :: r => includes r t end.
Proof. by destruct s. Qed.

(** [includes] finds exactly the contiguous runs. *)
Lemma includes16_iff (s t : list N) :
  includes s t = true ↔ ∃ before after, s = before ++ t ++ after.
Proof.
  split.
  - induction s as [|c s IH]; intros H; rewrite includes16_unfold in H;
      apply orb_true_iff in H as [H|H]; try done.
    + apply startsWith16_inv in H as [r ->]. by exists [], r.
    + apply startsWith16_inv in H as [r ->]. by exists [], r.
    + destruct (IH H) as (before & after & ->). by exists (c :: before), after.
  - intros (before & after & ->). induction before as [|c before IH].
    + rewrite includes16_unfold.
      change ([] ++ t ++ after) with (t ++ after).
      by rewrite startsWith16_app.
    + change ((c :: before) ++ t ++ after) with (c :: (before ++ t ++ after)).
      rewrite includes16_unfold, IH. apply orb_true_r.
Qed.

Lemma tableLowerCase_latin1 (s : list N) :
  Forall (λ u, (u < 256)%N) s → tableLowerCase s = List.map lowerLatin1 s.
Proof.
  induction 1 as [|u s Hu _ IH]; [done|].
  unfold tableLowerCase in *. cbn [flat_map List.map]. rewrite IH.
  unfold lowerOf. apply N.ltb_lt in Hu. by rewrite Hu.
Qed.

Lemma lowerOf_nonempty (u : N) : lowerOf u ≠ [].
Proof. unfold lowerOf. by destruct (u <? 256)%N, (u =? 304)%N. Qed.

Lemma tableLowerCase_nil (s : list N) : tableLowerCase s = [] → s = [].
Proof.
  destruct s as [|u s]; [done|]. unfold tableLowerCase. cbn [flat_map].
  intros H. apply app_eq_nil in H as [H _]. by apply lowerOf_nonempty in H.
Qed.

(** A string that lower-cases to one unit is one unit. *)
Lemma tableLowerCase_single (s : list N) (x : N) :
  tableLowerCase s = [x] → ∃ u, s = [u] ∧ lowerOf u = [x].
Proof.
  destruct s as [|u s]; [done|]. unfold tableLowerCase. cbn [flat_map].
  intros H. pose proof (lowerOf_nonempty u) as Hne.
  destruct (lowerOf u) as [|y ys] eqn:Hu; [done|].
  injection H as -> H. apply app_eq_nil in H as [-> H].
  apply tableLowerCase_nil in H as ->. by exists u.
Qed.

Lemma filteredBooks16_elem (lower : list N → list N) (bs : list Book)
    (query : list N) (onlyMarked : bool) (b : Book) :
  b ∈ filteredBooks lower bs query onlyMarked
  ↔ b ∈ bs
    ∧ includes (lower (title b)) (lower query) = true
    ∧ (onlyMarked = false ∨ isMarked b = Some true).
Proof.
  unfold filteredBooks.
  rewrite !list_elem_of_In, filter_In, andb_true_iff.
  unfold matchesSearch, matchesMarked, truthyFlag.
  destruct onlyMarked; destruct (isMarked b) as [[|]|];
    intuition (auto; congruence).
Qed.

(** Where lower-casing acts unit by unit, a run of the lower-cased title
    is a stretch of the title. *)
Lemma run_is_stretch (lower : list N → list N) (P : N → Prop) (f : N → N)
    (t q : list N) :
  (∀ s, Forall P s → lower s = List.map f s) →
  Forall P t → Forall P q →
  (∃ before after, lower t = before ++ lower q ++ after)
  ↔ containsUpToCase lower t q.
Proof.
  intros Hf Ht Hq. split.
  - intros (before & after & H). rewrite (Hf t Ht), (Hf q Hq) in H.
    apply map_eq_app in H as (x & y & -> & _ & H).
    apply map_eq_app in H as (m & z & -> & Hm & _).
    exists x, m, z. split; [done|].
    apply Forall_app in Ht as [_ Ht]. apply Forall_app in Ht as [Ht _].
    by rewrite (Hf m Ht), (Hf q Hq).
  - intros (x & m & z & -> & Hm).
    pose proof Ht as Ht'.
    apply Forall_app in Ht' as [_ Ht']. apply Forall_app in Ht' as [Ht' _].
    exists (List.map f x), (List.map f z).
    rewrite (Hf _ Ht), !List.map_app, <- (Hf m Ht'). by rewrite Hm.
Qed.

Lemma ofString_lower (s : string) :
  tableLowerCase (ofString s) = ofString (JsString.toLowerCase s).
Proof.
  induction s as [|c s IH]; [done|].
  unfold tableLowerCase in *. cbn [ofString flat_map JsString.toLowerCase].
  rewrite IH. unfold lowerOf, lowerLatin1.
  pose proof (N_ascii_bounded c) as Hc. apply N.ltb_lt in Hc.
  by rewrite Hc, ascii_N_embedding.
Qed.

Lemma ofString_startsWith (s p : string) :
  startsWith (ofString s) (ofString p) = JsString.startsWith s p.
Proof.
  revert s. induction p as [|a p IH]; intros s; [by destruct s|].
  destruct s as [|b s]; [done|]. cbn [ofString startsWith JsString.startsWith].
  rewrite IH. f_equal.
  destruct (Ascii.eqb a b) eqn:E.
  - apply Ascii.eqb_eq in E as ->. apply N.eqb_refl.
  - apply N.eqb_neq. intros H. apply Ascii.eqb_neq in E. apply E.
    by rewrite <- (ascii_N_embedding a), H, ascii_N_embedding.
Qed.

Lemma ofString_includes (s t : string) :
  includes (ofString s) (ofString t) = JsString.includes s t.
Proof.
  induction s as [|c s IH].
  - rewrite includes16_unfold, includes_unfold. by rewrite ofString_startsWith.
  - rewrite includes16_unfold, includes_unfold, ofString_startsWith.
    cbn [ofString]. by rewrite IH.
Qed.

(** C3, as amended. The displayed list holds exactly the books of the
    stored list whose lower-cased title has the lower-cased query as a
    run of code units and, when the marked-only toggle is on, whose marked
    flag is set; it keeps their order.  Where lower-casing acts unit by
    unit on the title and the query, as it does on units below 256, these
    are the books whose title has a stretch equal to the query up to
    letter case: a book titled "Clean Code" is displayed for the queries
    "clean", "CODE" and "an co". *)
Theorem filteredBooks_lowered_run
    (lower : list N → list N) (bs : list Book) (query : list N)
    (onlyMarked : bool) :
  (∀ b, b ∈ filteredBooks lower bs query onlyMarked
        ↔ b ∈ bs
          ∧ (∃ before after,
               lower (title b) = before ++ lower query ++ after)
          ∧ (onlyMarked = false ∨ isMarked b = Some true))
  ∧ sublist (filteredBooks lower bs query onlyMarked) bs
  ∧ (∀ (P : N → Prop) (f : N → N),
       (∀ s, Forall P s → lower s = List.map f s) →
       Forall P query →
       ∀ b, Forall P (title b) →
            (b ∈ filteredBooks lower bs query onlyMarked
             ↔ b ∈ bs
               ∧ containsUpToCase lower (title b) query
               ∧ (onlyMarked = false ∨ isMarked b = Some true)))
  ∧ (∀ s, Forall (λ u, (u < 256)%N) s →
          tableLowerCase s = List.map lowerLatin1 s)
  ∧ (∀ b, title b = ofString "Clean Code" →
          filteredBooks tableLowerCase [b] (ofString "clean") false = [b]
          ∧ filteredBooks tableLowerCase [b] (ofString "CODE") false = [b]
          ∧ filteredBooks tableLowerCase [b] (ofString "an co") false = [b]).
Proof.
  split; [|split; [|split; [|split]]].
  - intros b. by rewrite filteredBooks16_elem, includes16_iff.
  - unfold filteredBooks. induction bs as [|b bs IH]; simpl; [constructor|].
    destruct (_ && _); by constructor.
  - intros P f Hf Hq b Ht.
    by rewrite filteredBooks16_elem, includes16_iff,
      (run_is_stretch lower P f _ _ Hf Ht Hq).
  - apply tableLowerCase_latin1.
  - intros b Hb. unfold filteredBooks, matchesSearch. simpl. by rewrite Hb.
Qed.

(** C3, as the specification words it, fails where lower-casing changes
    the number of units: the title that starts with U+0130 lower-cases to
    a string that starts with "i", so the book is displayed for the query
    "i", and no stretch of the title lower-cases to "i". *)
Lemma dotted_capital_refutes_search_claim :
  ¬ searchClaimAsStated tableLowerCase.
Proof.
  intros H.
  destruct (H [Sample.istanbul] [105%N] false Sample.istanbul) as [Hshown _].
  destruct Hshown as (_ & (before & stretch & after & Ht & Hl) & _).
  { vm_compute. constructor. }
  change (tableLowerCase [105%N]) with [105%N] in Hl.
  apply tableLowerCase_single in Hl as (u & -> & Hu).
  assert (In u (title Sample.istanbul)) as Hin.
  { rewrite Ht. apply in_or_app. right. by left. }
  simpl in Hin.
  repeat (destruct Hin as [<-|Hin]; [vm_compute in Hu; discriminate Hu|]).
  destruct Hin.
Qed.

End SearchClaim.

Section SearchAgreement.

(** On the strings of the library view, whose units are below 256, the
    filter over code units with the table is the filter of the library
    view. *)
Lemma latin1_search_agrees (query : string) (b : Book) (b16 : Utf16.Book) :
  Utf16.title b16 = Utf16.ofString (title b) →
  Utf16.matchesSearch Utf16.tableLowerCase (Utf16.ofString query) b16
  = App.matchesSearch query b.
Proof.
  intros Ht. unfold Utf16.matchesSearch, App.matchesSearch.
  by rewrite Ht, !ofString_lower, ofString_includes.
Qed.

End SearchAgreement.

(** ** The reader *)

Section ReaderFacts.
Import Reader.

Lemma hasPageElement_iff (s : State) (k : Z) :
  hasPageElement s k = true
  ↔ loading s = false ∧ is_Some (pdfDoc s) ∧ 1 ≤ k ≤ numPages s.
Proof.
  unfold hasPageElement, pageNumbers.
  rewrite bool_decide_eq_true, list_elem_of_In.
  destruct (loading s).
  { simpl. split; [done|]. by intros [? _]. }
  destruct (pdfDoc s) as [pdf|].
  - rewrite in_map_iff. split.
    + intros (i & <- & Hi). apply in_seq in Hi. split; [done|].
      split; [by eexists|]. lia.
    + intros (_ & _ & Hk). exists (Z.to_nat (k - 1)).
      split; [lia|]. apply in_seq. lia.
  - simpl. split; [done|]. intros (_ & H & _). by destruct H.
Qed.

Lemma hasPageElement_ge1 (s : State) (k : Z) :
  hasPageElement s k = true → 1 ≤ k.
Proof. intros H. apply hasPageElement_iff in H. lia. Qed.

(** The observer callback: the current page becomes the page's number as
    soon as one entry intersects, and every intersecting entry issues one
    write. *)
Lemma observerCallback_spec (k : Z) (entries : list bool) (s : State) :
  fst (observerCallback k entries s)
  = (if existsb (λ x, x) entries then setCurrentPage k s else s)
  ∧ writesOf (snd (observerCallback k entries s))
    = List.map (λ _, (id (book s), k)) (List.filter (λ x, x) entries).
Proof.
  revert s. induction entries as [|e entries IH]; intros s; [done|].
  destruct e; simpl.
  - destruct (IH (setCurrentPage k s)) as [IH1 IH2].
    destruct (observerCallback k entries (setCurrentPage k s)) as [s2 e2].
    simpl in *. split.
    + rewrite IH1. by destruct (existsb _ entries).
    + by rewrite IH2.
  - apply IH.
Qed.

(** Everything but a visible page leaves the current page alone. *)
Lemma step_currentPage (s : State) (ev : Event) :
  currentPage (fst (step s ev)) = currentPage s
  ∨ ∃ k, hasPageElement s k = true ∧ currentPage (fst (step s ev)) = k.
Proof.
  destruct ev as [pdf| |k entries|t|ok]; simpl.
  - left. unfold initialScroll.
    destruct (_ && _); [|done]. by destruct (hasPageElement _ _).
  - by left.
  - destruct (hasPageElement s k) eqn:Hk; [|by left].
    rewrite (proj1 (observerCallback_spec k entries s)).
    destruct (existsb _ entries); [right; by exists k|by left].
  - left. unfold click. destruct (negb _); [done|].
    destruct (insideScrollContainer t).
    + unfold toggleControls. by destruct (_ || _).
    + destruct t; try done; simpl.
      * by destruct (prevDisabled s).
      * by destruct (nextDisabled s).
  - by left.
Qed.

(** The book of an open reader never changes. *)
Lemma step_book (s : State) (ev : Event) : book (fst (step s ev)) = book s.
Proof.
  destruct ev as [pdf| |k entries|t|ok]; simpl; try done.
  - unfold initialScroll.
    destruct (_ && _); [|done]. by destruct (hasPageElement _ _).
  - destruct (hasPageElement s k); [|done].
    rewrite (proj1 (observerCallback_spec k entries s)).
    by destruct (existsb _ entries).
  - unfold click. destruct (negb _); [done|].
    destruct (insideScrollContainer t).
    + unfold toggleControls. by destruct (_ || _).
    + destruct t; try done; simpl.
      * by destruct (prevDisabled s).
      * by destruct (nextDisabled s).
Qed.

(** A step keeps the scale, zooms it in or out, or resets it. *)
Lemma step_scale (s : State) (ev : Event) :
  scale (fst (step s ev)) = scale s
  ∨ scale (fst (step s ev)) = zoomInUpdater (scale s)
  ∨ scale (fst (step s ev)) = zoomOutUpdater (scale s)
  ∨ scale (fst (step s ev)) = Num.lit_1_0.
Proof.
  destruct ev as [pdf| |k entries|t|ok]; simpl; try (by left).
  - left. unfold initialScroll.
    destruct (_ && _); [|done]. by destruct (hasPageElement _ _).
  - left. destruct (hasPageElement s k); [|done].
    rewrite (proj1 (observerCallback_spec k entries s)).
    by destruct (existsb _ entries).
  - unfold click. destruct (negb _); [by left|].
    destruct (insideScrollContainer t).
    + left. unfold toggleControls. by destruct (_ || _).
    + destruct t; simpl; auto.
      * left. by destruct (prevDisabled s).
      * left. by destruct (nextDisabled s).
Qed.

Lemma run_snoc (s : State) (evs : list Event) (ev : Event) :
  fst (run s (evs ++ [ev])) = fst (step (fst (run s evs)) ev).
Proof.
  revert s. induction evs as [|e evs IH]; intros s; simpl.
  - by destruct (step s ev).
  - destruct (step s e) as [s1 e1]. specialize (IH s1).
    destruct (run s1 (evs ++ [ev])), (run s1 evs). done.
Qed.

(** A click either flips the controls flag, and does only that, or
    leaves the flag as it is. *)
Lemma click_showControls (s : State) (t : Target) :
  present s t = true →
  if isCurrentTarget t || closestPageContainer t
  then step s (Click t) = (setShowControls (negb (showControls s)) s, [])
  else showControls (fst (step s (Click t))) = showControls s.
Proof.
  intros Hp. simpl. unfold click. rewrite Hp.
  destruct t; simpl; try done.
  - by destruct (prevDisabled s).
  - by destruct (nextDisabled s).
Qed.

Lemma toggle_targets (t : Target) :
  isCurrentTarget t || closestPageContainer t = true
  ↔ t = ScrollContainer ∨ ∃ k, t = InsidePage k.
Proof.
  destruct t; simpl; split; try done; eauto; by intros [?|[? ?]].
Qed.

Lemma run_book (s : State) (evs : list Event) :
  book (fst (run s evs)) = book s.
Proof.
  induction evs as [|ev evs IH] using rev_ind; [done|].
  by rewrite run_snoc, step_book.
Qed.

Lemma sameFloat_eq (x y : spec_float) : sameFloat x y = true → x = y.
Proof.
  destruct x as [a|a| |a m e], y as [b|b| |b n f]; simpl; try done.
  - by intros ->%Bool.eqb_prop.
  - by intros ->%Bool.eqb_prop.
  - intros [[->%Bool.eqb_prop ->%Pos.eqb_eq]%andb_true_iff ->%Z.eqb_eq]%andb_true_iff.
    done.
Qed.

Lemma memFloat_elem (x : spec_float) (l : list spec_float) :
  memFloat x l = true → x ∈ l.
Proof.
  unfold memFloat. rewrite existsb_exists. intros (y & Hy & ->%sameFloat_eq).
  by apply list_elem_of_In.
Qed.

Lemma zoomOrbit_checked (x : spec_float) :
  x ∈ zoomOrbit → orbitCheck x = true.
Proof.
  assert (forallb orbitCheck zoomOrbit = true) as H by (vm_compute; reflexivity).
  rewrite forallb_forall in H. intros Hx. by apply H, list_elem_of_In.
Qed.

Lemma zoomOrbit_start : Num.lit_1_0 ∈ zoomOrbit.
Proof. apply memFloat_elem. vm_compute. reflexivity. Qed.

(** The scale of an open reader stays on the orbit of 1.0. *)
Lemma run_scale_on_orbit (b : Book) (evs : list Event) :
  scale (fst (run (init b) evs)) ∈ zoomOrbit.
Proof.
  induction evs as [|ev evs IH] using rev_ind.
  - apply zoomOrbit_start.
  - rewrite run_snoc.
    pose proof (zoomOrbit_checked _ IH) as Hc. unfold orbitCheck in Hc.
    repeat (apply andb_true_iff in Hc as [Hc ?]).
    destruct (step_scale (fst (run (init b) evs)) ev) as [->|[->|[->| ->]]].
    + done.
    + by apply memFloat_elem.
    + by apply memFloat_elem.
    + apply zoomOrbit_start.
Qed.

Lemma last_cons {A} (x : A) (l : list A) (d : A) :
  List.last (x :: l) d = List.last l x.
Proof.
  revert x d. induction l as [|y l IH]; intros x d; [done|].
  change (List.last (y :: l) d = List.last (y :: l) x).
  by rewrite !IH.
Qed.

Lemma last_app_default {A} (l1 l2 : list A) (d : A) :
  List.last (l1 ++ l2) d = List.last l2 (List.last l1 d).
Proof.
  revert d. induction l1 as [|x l1 IH]; intros d; [done|].
  rewrite <- app_comm_cons, !last_cons. apply IH.
Qed.

Lemma last_visible (k d : Z) (entries : list bool) :
  List.last (List.map (λ _, k) (List.filter (λ x, x) entries)) d
  = if existsb (λ x, x) entries then k else d.
Proof.
  revert d. induction entries as [|e entries IH]; intros d; [done|].
  destruct e; [|apply IH]. cbn [List.filter List.map existsb orb].
  rewrite last_cons, IH. by destruct (existsb _ entries).
Qed.

(** One observer callback at the head of a run. *)
Lemma run_observer_cons (s : State) (k : Z) (entries : list bool)
    (obs : list (Z * list bool)) :
  hasPageElement s k = true →
  let s1 := fst (observerCallback k entries s) in
  book s1 = book s
  ∧ (∀ j, hasPageElement s1 j = hasPageElement s j)
  ∧ currentPage s1
    = List.last (List.map (λ _, k) (List.filter (λ x, x) entries))
                (currentPage s)
  ∧ writesOf (snd (run s (observerEvents ((k, entries) :: obs))))
    = List.map (λ _, (id (book s), k)) (List.filter (λ x, x) entries)
      ++ writesOf (snd (run s1 (observerEvents obs)))
  ∧ fst (run s (observerEvents ((k, entries) :: obs)))
    = fst (run s1 (observerEvents obs)).
Proof.
  intros Hk. simpl. rewrite Hk.
  destruct (observerCallback_spec k entries s) as [Hs He].
  destruct (observerCallback k entries s) as [s1 e1]. simpl in *.
  destruct (run s1 (observerEvents obs)) as [s2 e2]. simpl.
  rewrite last_visible. unfold writesOf in *. rewrite omap_app, He.
  rewrite Hs. by destruct (existsb _ entries).
Qed.

End ReaderFacts.

Section ReaderClaims.
Import Reader.

(** C4. The scale is one value handed to every page.  It starts at 1.0
    and, whatever happens to the reader, stays within [[0.4, 3.0]]: zoom-in
    adds 0.2 and yields 3.0 where the sum would exceed 3.0, zoom-out
    subtracts 0.2 and yields 0.4 where the difference would fall below
    0.4, and reset-zoom yields 1.0. *)
Theorem zoom_scale_bounded (b : Book) (evs : list Event) :
  scale (init b) = Num.lit_1_0
  ∧ inRange (scale (fst (run (init b) evs))) = true
  ∧ (∀ k sc, (k, sc) ∈ pageProps (fst (run (init b) evs))
             → sc = scale (fst (run (init b) evs)))
  ∧ scale (zoomIn (fst (run (init b) evs)))
    = (if Num.ltb Num.lit_3_0
            (Num.add (scale (fst (run (init b) evs))) Num.lit_0_2)
       then Num.lit_3_0
       else Num.add (scale (fst (run (init b) evs))) Num.lit_0_2)
  ∧ scale (zoomOut (fst (run (init b) evs)))
    = (if Num.ltb (Num.sub (scale (fst (run (init b) evs))) Num.lit_0_2)
            Num.lit_0_4
       then Num.lit_0_4
       else Num.sub (scale (fst (run (init b) evs))) Num.lit_0_2)
  ∧ scale (resetZoom (fst (run (init b) evs))) = Num.lit_1_0.
Proof.
  pose proof (zoomOrbit_checked _ (run_scale_on_orbit b evs)) as Hc.
  unfold orbitCheck in Hc.
  apply andb_true_iff in Hc as [Hc Hout].
  apply andb_true_iff in Hc as [Hc Hin].
  apply andb_true_iff in Hc as [_ Hrange].
  split; [done|]. split; [done|]. split.
  { intros k sc H. unfold pageProps in H.
    apply list_elem_of_In, in_map_iff in H as (k' & H & _). congruence. }
  split; [by apply sameFloat_eq|]. split; [by apply sameFloat_eq|done].
Qed.

(** C7. With the pages mounted, [scrollToPage] scrolls to the requested
    index clamped to [[1, numPages]].  On page 1 the previous-page button is
    disabled and on the last page the next-page button is: a click on
    either changes nothing and scrolls nowhere. *)
Theorem navigation_clamped (s : State) (pageNumber : Z) :
  loading s = false → is_Some (pdfDoc s) → 1 ≤ numPages s →
  scrollToPage pageNumber s
  = [ScrollIntoView (Z.max 1 (Z.min pageNumber (numPages s))) true]
  ∧ 1 ≤ scrollTarget pageNumber s ≤ numPages s
  ∧ (pageNumber < 1 → scrollTarget pageNumber s = 1)
  ∧ (1 ≤ pageNumber ≤ numPages s → scrollTarget pageNumber s = pageNumber)
  ∧ (numPages s < pageNumber → scrollTarget pageNumber s = numPages s)
  ∧ (currentPage s = 1 →
     prevDisabled s = true ∧ step s (Click BtnPrev) = (s, []))
  ∧ (currentPage s = numPages s →
     nextDisabled s = true ∧ step s (Click BtnNext) = (s, [])).
Proof.
  intros Hload Hdoc Hn.
  assert (hasPageElement s (scrollTarget pageNumber s) = true) as Hel.
  { apply hasPageElement_iff. unfold scrollTarget. repeat split; [done..|lia|lia]. }
  unfold scrollToPage. rewrite Hel. unfold scrollTarget.
  split; [done|]. split; [lia|]. split; [lia|]. split; [lia|]. split; [lia|].
  split; intros Hcur.
  - assert (prevDisabled s = true) as Hd
      by (unfold prevDisabled; rewrite Hcur; reflexivity).
    split; [done|]. simpl. unfold click. simpl. by rewrite Hd.
  - assert (nextDisabled s = true) as Hd.
    { unfold nextDisabled. rewrite Hcur. apply Z.geb_le. lia. }
    split; [done|]. simpl. unfold click. simpl. by rewrite Hd.
Qed.

(** C8. Each time a mounted page reports itself visible, that page
    becomes the current page and one [updateLastPage] write for it is
    issued in the same step: the writes of a run are the visible pages,
    one for one and in order.  When a write settles, well or badly,
    nothing in the reader changes and nothing is shown. *)
Theorem progress_written_on_every_visibility
    (s : State) (obs : list (Z * list bool)) :
  Forall (λ o, hasPageElement s (fst o) = true) obs →
  writesOf (snd (run s (observerEvents obs)))
  = List.map (λ k, (id (book s), k)) (visiblePages obs)
  ∧ currentPage (fst (run s (observerEvents obs)))
    = List.last (visiblePages obs) (currentPage s)
  ∧ (∀ k, hasPageElement s k = true →
          step s (Intersect k [true])
          = (setCurrentPage k s,
             [Call_updateLastPage (id (book s)) k;
              Call_renderPage k (scale s)]))
  ∧ (∀ s' ok, step s' (LastPageWriteSettled ok) = (s', [])).
Proof.
  intros Hobs. split; [|split; [|split]].
  - revert s Hobs. induction obs as [|[k entries] obs IH]; intros s Hobs; [done|].
    apply Forall_cons in Hobs as [Hk Hobs]. simpl in Hk.
    destruct (run_observer_cons s k entries obs Hk) as (Hb & Hel & _ & Hw & _).
    rewrite Hw, IH.
    + cbn [visiblePages flat_map fst snd]. rewrite List.map_app, List.map_map.
      by rewrite Hb.
    + eapply Forall_impl; [exact Hobs|]. intros o Ho. by rewrite Hel.
  - revert s Hobs. induction obs as [|[k entries] obs IH]; intros s Hobs; [done|].
    apply Forall_cons in Hobs as [Hk Hobs]. simpl in Hk.
    destruct (run_observer_cons s k entries obs Hk) as (_ & Hel & Hc & _ & Hf).
    rewrite Hf, IH.
    + cbn [visiblePages flat_map fst snd]. by rewrite last_app_default, Hc.
    + eapply Forall_impl; [exact Hobs|]. intros o Ho. by rewrite Hel.
  - intros k Hk. simpl. by rewrite Hk.
  - done.
Qed.

(** C9, as amended. The controls flag flips exactly when the click lands
    on the scroll container itself or inside a page container; a click on
    the header, the footer or their buttons never flips it.  A flip
    changes nothing else in the reader and has no effect outside it. *)
Theorem controls_toggle_targets (s : State) (t : Target) :
  present s t = true →
  (togglesControls s t = true ↔ t = ScrollContainer ∨ ∃ k, t = InsidePage k)
  ∧ (onControls t = true → togglesControls s t = false)
  ∧ (togglesControls s t = true →
     step s (Click t) = (setShowControls (negb (showControls s)) s, [])
     ∧ book (fst (step s (Click t))) = book s
     ∧ numPages (fst (step s (Click t))) = numPages s
     ∧ currentPage (fst (step s (Click t))) = currentPage s
     ∧ loading (fst (step s (Click t))) = loading s
     ∧ scale (fst (step s (Click t))) = scale s
     ∧ pdfDoc (fst (step s (Click t))) = pdfDoc s
     ∧ initialScrollDone (fst (step s (Click t))) = initialScrollDone s).
Proof.
  intros Hp. pose proof (click_showControls s t Hp) as Hc.
  pose proof (toggle_targets t) as Ht. unfold togglesControls.
  destruct (isCurrentTarget t || closestPageContainer t) eqn:E.
  - rewrite Hc. simpl. rewrite Bool.eqb_negb1. simpl.
    split; [split; [intros _; by apply Ht|done]|].
    split; [|done]. intros Hon. unfold onControls in Hon.
    destruct t; simpl in *; done.
  - rewrite Hc, Bool.eqb_reflx. simpl.
    split; [split; [done|]|done].
    intros H. apply Ht in H. done.
Qed.

(** C10. A book whose [lastPage] is 0 or missing opens on page 1, the
    initial scroll goes to page 1, and from then on the current page is
    never below 1. *)
Theorem reader_opens_at_page_one (b : Book) (evs : list Event) :
  truthyNum (lastPage b) = false →
  currentPage (init b) = 1
  ∧ initialScrollTarget (fst (run (init b) evs)) = 1
  ∧ (∀ pdf, 1 ≤ doc_numPages pdf →
            snd (step (init b) (Loaded pdf)) = [ScrollIntoView 1 false])
  ∧ 1 ≤ currentPage (fst (run (init b) evs)).
Proof.
  intros Hfalsy.
  assert (lastPageOr1 b = 1) as Hone.
  { unfold lastPageOr1. unfold truthyNum in Hfalsy.
    destruct (lastPage b) as [n|]; [|done].
    by apply negb_false_iff in Hfalsy as ->. }
  split; [done|]. split; [|split].
  - unfold initialScrollTarget. by rewrite run_book.
  - intros pdf Hpdf.
    assert (hasPageElement (loadPdf_resolved pdf (init b)) 1 = true) as Hel.
    { apply hasPageElement_iff. simpl. split; [done|]. split; [by eexists|lia]. }
    simpl. unfold initialScroll, initialScrollTarget. simpl.
    by rewrite Hone, Hel.
  - induction evs as [|ev evs IH] using rev_ind.
    + simpl. lia.
    + rewrite run_snoc.
      destruct (step_currentPage (fst (run (init b) evs)) ev)
        as [->|(k & Hk & ->)]; [done|].
      by apply hasPageElement_ge1 in Hk.
Qed.

End ReaderClaims.

(** ** The render life cycle *)

Section RenderFacts.
Import PdfPage.

Lemma run_app (x : bool) (evs es : list Event) :
  run x (evs ++ es) = foldl (step x) (run x evs) es.
Proof. unfold run. apply foldl_app. Qed.

Lemma lastRequested_app (evs es : list Event) :
  lastRequested (evs ++ es)
  = match lastRequested es with
    | Some s => Some s
    | None => lastRequested evs
    end.
Proof.
  unfold lastRequested. rewrite omap_app.
  destruct (omap _ es) as [|x l] using rev_ind.
  - by rewrite app_nil_r.
  - by rewrite app_assoc, !last_snoc.
Qed.

Lemma filter_not_running (olds : list RenderTask) :
  Forall (λ o, isRunning o = false) olds → List.filter isRunning olds = [].
Proof.
  induction 1 as [|o olds Ho _ IH]; [done|]. simpl. by rewrite Ho.
Qed.

Lemma existsb_not_running (olds : list RenderTask) :
  Forall (λ o, isRunning o = false) olds → existsb isRunning olds = false.
Proof.
  induction 1 as [|o olds Ho _ IH]; [done|]. simpl. by rewrite Ho.
Qed.

Lemma cancel_not_running (t : RenderTask) : isRunning (cancel t) = false.
Proof. unfold cancel. by destruct (isRunning t) eqn:E. Qed.

(** A render, with nothing waiting: the task the ref holds is cancelled
    and a new one starts at the requested scale. *)
Lemma serial_render (x : bool) (evs : list Event) (s : State)
    (scale : spec_float) :
  serialInv evs s →
  serialInv (evs ++ [Trigger scale; PageReady])
            (foldl (step x) s [Trigger scale; PageReady]).
Proof.
  intros (Hw & H). unfold serialInv. rewrite lastRequested_app.
  simpl. unfold renderPage_resume, renderPage_begin. simpl. rewrite Hw. simpl.
  split; [done|]. right.
  destruct H as [(Ht & Hr & _)|(olds & t & Ht & Hold & Hr & _ & _)].
  - rewrite Ht, Hr. simpl. rewrite andb_false_r.
    exists [], (mkTask scale Running). simpl. eauto 10.
  - rewrite Ht, Hr.
    replace (length olds) with (length olds + 0)%nat by lia.
    rewrite alter_app_r. simpl.
    assert (Forall (λ o, isRunning o = false) (olds ++ [cancel t])) as Hall.
    { apply Forall_app. split; [done|].
      constructor; [apply cancel_not_running|constructor]. }
    rewrite (existsb_not_running _ Hall), andb_false_r.
    exists (olds ++ [cancel t]), (mkTask scale Running).
    rewrite ?Nat.add_0_r. eauto 10.
Qed.

(** The end of a task, with nothing waiting. *)
Lemma serial_done (x : bool) (evs : list Event) (s : State) (i : nat) :
  serialInv evs s → serialInv (evs ++ [Finish i]) (step x s (Finish i)).
Proof.
  intros (Hw & H). unfold serialInv. rewrite lastRequested_app.
  simpl. unfold taskFinished.
  destruct H as [(Ht & Hr & Hl)|(olds & t & Ht & Hold & Hr & Hl & Hst)].
  - rewrite Ht. simpl. split; [done|]. by left.
  - rewrite Ht.
    destruct (decide (i < length olds)%nat) as [Hlt|Hge].
    + rewrite lookup_app_l by done.
      destruct (olds !! i) as [o|] eqn:Ho.
      * rewrite (proj1 (Forall_lookup _ _) Hold _ _ Ho).
        split; [done|]. right. exists olds, t. eauto 10.
      * split; [done|]. right. exists olds, t. eauto 10.
    + rewrite lookup_app_r by lia.
      destruct (i - length olds)%nat as [|n] eqn:Hi.
      * simpl. destruct (isRunning t) eqn:Hrun.
        -- simpl. split; [done|]. right.
           exists olds, (finish t).
           assert (i = length olds + 0)%nat as -> by lia.
           rewrite alter_app_r. simpl.
           unfold finish. rewrite Hrun. simpl. eauto 10.
        -- split; [done|]. right. exists olds, t. eauto 10.
      * simpl. split; [done|]. right. exists olds, t. eauto 10.
Qed.

(** Without overlapping calls the render claim holds of the code, whether
    or not the library guards its canvas. *)
Lemma serial_runs_keep_inv (x : bool) (steps : list SerialStep) :
  serialInv (serialEvents steps) (run x (serialEvents steps)).
Proof.
  induction steps as [|st steps IH] using rev_ind.
  - split; [done|]. by left.
  - unfold serialEvents in *. rewrite flat_map_app. simpl.
    rewrite app_nil_r, run_app.
    destruct st as [scale|i].
    + by apply serial_render.
    + by apply serial_done.
Qed.

Lemma serial_runs_render_one_at_a_time (x : bool) (steps : list SerialStep) :
  (runningCount (run x (serialEvents steps)) ≤ 1)%nat
  ∧ (quiescent (run x (serialEvents steps)) = true →
     lastRequested (serialEvents steps) ≠ None →
     painted (run x (serialEvents steps))
     = lastRequested (serialEvents steps)).
Proof.
  destruct (serial_runs_keep_inv x steps) as (Hw & H).
  unfold quiescent, runningCount.
  destruct H as [(Ht & _ & Hl)|(olds & t & Ht & Hold & _ & Hl & Hst)].
  - rewrite Ht. simpl. split; [lia|]. intros _ Hne. by rewrite Hl in Hne.
  - rewrite Ht, List.filter_app, (filter_not_running _ Hold). simpl.
    destruct Hst as [Hrun|[Hfin Hp]].
    + unfold isRunning. rewrite Hrun. simpl. split; [lia|].
      rewrite andb_false_r. done.
    + unfold isRunning. rewrite Hfin. simpl. split; [lia|].
      intros _ _. by rewrite Hp, Hl.
Qed.

End RenderFacts.

Section RenderClaims.
Import PdfPage.

(** C2. Two calls of [renderPage] that overlap at [await getPage]: the page
    enters the viewport at scale 1.0 and, before its page arrives, the
    scale changes to 1.2.  Each call cancels what the ref holds when it
    starts, and that is not the other call's render.  If the library lets
    both run, two renders draw on the canvas at once; if it refuses the
    second, the canvas, sized for 1.2, ends up painted at 1.0.  Either way
    the render claim fails. *)
Theorem renderPage_overlap_breaks_claim :
  runningCount (run false Sample.overlap) = 2%nat
  ∧ quiescent (run true (Sample.overlap ++ [Finish 0%nat])) = true
  ∧ lastRequested (Sample.overlap ++ [Finish 0%nat]) = Some Num.lit_1_2
  ∧ canvasScale (run true (Sample.overlap ++ [Finish 0%nat]))
    = Some Num.lit_1_2
  ∧ painted (run true (Sample.overlap ++ [Finish 0%nat])) = Some Num.lit_1_0
  ∧ ¬ renderClaimAsStated false
  ∧ ¬ renderClaimAsStated true.
Proof.
  split; [reflexivity|]. split; [reflexivity|]. split; [reflexivity|].
  split; [reflexivity|]. split; [reflexivity|]. split.
  - intros H. destruct (H Sample.overlap) as [Hle _].
    vm_compute in Hle. lia.
  - intros H. destruct (H (Sample.overlap ++ [Finish 0%nat])) as [_ Hp].
    specialize (Hp eq_refl). discriminate Hp. discriminate.
Qed.

End RenderClaims.

(** ** The statements at sample inputs *)

Section Samples.
Import App Reader.

Lemma literals_are_nearest :
  Num.lit_0_2 = SFdiv Num.prec Num.emax (Num.ofZ 1) (Num.ofZ 5)
  ∧ Num.lit_0_4 = SFdiv Num.prec Num.emax (Num.ofZ 2) (Num.ofZ 5)
  ∧ Num.lit_1_2 = SFdiv Num.prec Num.emax (Num.ofZ 6) (Num.ofZ 5)
  ∧ Num.lit_1_0 = Num.ofZ 1
  ∧ Num.lit_3_0 = Num.ofZ 3
  ∧ Num.lit_1_2 = Num.add Num.lit_1_0 Num.lit_0_2.
Proof. repeat split; vm_compute; reflexivity. Qed.

Lemma keyed_empty : Store.keyed ∅.
Proof. intros k b H. by rewrite lookup_empty in H. Qed.

Lemma upload_rejects_non_pdf_witness :
  file_type Sample.image ≠ pdfMime
  ∧ handleFileUpload Sample.env (Some Sample.image) Sample.world
    = (Returned tt,
       mkWorld (ui Sample.world) (db Sample.world) [Alert MsgChooseValidPdf]).
Proof.
  split; [discriminate|].
  apply (upload_rejects_non_pdf Sample.env Sample.image Sample.world).
  discriminate.
Defined.




Lemma upload_survives_enrichment_failure_witness :
  thumbnailOf Sample.env Sample.pdf = Thrown
  ∧ summaryOf Sample.env "Chapter one" = Thrown
  ∧ ∃ b w',
      handleFileUpload Sample.env (Some Sample.pdf) Sample.world
      = (Returned tt, w')
      ∧ db w' !! id b = Some b
      ∧ thumbnail b = None
      ∧ summary b = None
      ∧ b ∈ books (ui w')
      ∧ currentBook (ui (snd (openBook b w'))) = Some b.
Proof.
  split; [reflexivity|]. split; [reflexivity|].
  destruct (upload_survives_enrichment_failure Sample.env Sample.pdf
              Sample.world eq_refl eq_refl eq_refl)
    as (b & w' & es & Hrun & _ & _ & Hdb & _ & Hth & _ & Hsum & Hin & _ & _ & Hop).
  exists b, w'. repeat split; try assumption.
  - by apply Hth.
  - by apply (Hsum "Chapter one"%string).
Defined.

Lemma navigation_clamped_witness :
  scrollToPage 7 Sample.reader = [ScrollIntoView 3 true]
  ∧ scrollToPage (-2) Sample.reader = [ScrollIntoView 1 true].
Proof.
  split.
  - apply (navigation_clamped Sample.reader 7); [reflexivity|by eexists|simpl; lia].
  - apply (navigation_clamped Sample.reader (-2));
      [reflexivity|by eexists|simpl; lia].
Defined.

Lemma progress_written_on_every_visibility_witness :
  writesOf (snd (run Sample.reader
                     (observerEvents [(2, [true]); (3, [false; true])])))
  = [("b1"%string, 2); ("b1"%string, 3)].
Proof.
  apply (progress_written_on_every_visibility Sample.reader
           [(2, [true]); (3, [false; true])]).
  repeat constructor.
Defined.

Lemma controls_toggle_targets_witness :
  present Sample.reader (InsidePage 1) = true
  ∧ togglesControls Sample.reader (InsidePage 1) = true.
Proof.
  split; [reflexivity|].
  destruct (controls_toggle_targets Sample.reader (InsidePage 1) eq_refl)
    as [[_ Hflip] _].
  apply Hflip. right. by exists 1.
Defined.

Lemma reader_opens_at_page_one_witness :
  truthyNum (lastPage Sample.book) = false
  ∧ currentPage (init Sample.book) = 1
  ∧ 1 ≤ currentPage (fst (run (init Sample.book)
                               [Loaded (mkDoc 3); Intersect 2 [true]])).
Proof.
  split; [reflexivity|].
  destruct (reader_opens_at_page_one Sample.book
              [Loaded (mkDoc 3); Intersect 2 [true]] eq_refl)
    as (H1 & _ & _ & H2).
  by split.
Defined.

(** C9, as the specification words it, fails: a tap on a mounted page
    flips the controls flag. *)
Lemma tap_on_page_refutes_claim : ¬ tapClaimAsStated.
Proof.
  intros H.
  destruct (H Sample.reader (InsidePage 1) eq_refl) as [Hflip _].
  destruct (Hflip eq_refl) as (Hbg & _). discriminate Hbg.
Qed.

End Samples.

(** * Further properties of the code *)

Import Behaviour.

(** ** Upload, in full *)

Section UploadBehaviour.
Import App.

(** The run of an upload of a PDF, whatever the services answer. *)
Lemma handleFileUpload_pdf_run (env : Env) (file : File) (w : World) :
  file_type file = pdfMime →
  handleFileUpload env (Some file) w
  = (Returned tt,
     mkWorld (mkState (uploadBooks env file w) (currentBook (ui w)) false
                      (searchQuery (ui w)) (showOnlyMarked (ui w)) EmptyString)
             (uploadStore env file (db w))
             (trace w ++ uploadEffects env file)).
Proof.
  intros Hpdf.
  unfold handleFileUpload, uploadBooks, uploadStore, uploadEffects,
    enrichmentEffects, uploaded, thumbnailResult, summaryResult.
  rewrite (pdfMime_eqb _ Hpdf).
  unfold tryFinally, tryCatch, bind, loadLibrary, getAllBooks, saveBook,
    generateThumbnail, extractTextForSummary, getBookSummary, liftResult,
    setIsUploading, setBooks, clearFileInput, console, alert, emit,
    modifyUi, ret, throw, bind.
  simpl.
  destruct (thumbnailOf env file) as [t|]; simpl;
    (destruct (textOf env file) as [text|]; simpl;
     [destruct (JsString.truthy text); simpl;
      [destruct (summaryOf env text) as [sm|]; simpl|]|]);
    (destruct (storeWriteFails env); simpl;
     [|destruct (storeReadFails env); simpl]);
    rewrite <- ?app_assoc; reflexivity.
Qed.

(** X1. The calls of an upload of a PDF, in order: thumbnail, text, the
    summarizer only for a non-empty text, one store write with the new
    record, and the reload only after a write that succeeded. *)
Theorem upload_calls_in_order (env : Env) (file : File) (w : World) :
  file_type file = pdfMime →
  ∃ es, trace (snd (handleFileUpload env (Some file) w)) = trace w ++ es
        ∧ List.filter isCall es = uploadCalls env file.
Proof.
  intros Hpdf. rewrite (handleFileUpload_pdf_run env file w Hpdf).
  exists (uploadEffects env file). split; [done|].
  unfold uploadEffects, enrichmentEffects, uploadCalls.
  destruct (thumbnailOf env file); destruct (textOf env file) as [text|];
    try destruct (JsString.truthy text);
    try destruct (summaryOf env text);
    destruct (storeWriteFails env); destruct (storeReadFails env);
    reflexivity.
Qed.

(** X2. When the store refuses the write, the upload ends with the log
    line and the alert: the store and the list are as before, nothing is
    reloaded, the busy flag is off and the file input is empty. *)
Theorem upload_write_failure_alerts (env : Env) (file : File) (w : World) :
  file_type file = pdfMime → storeWriteFails env = true →
  ∃ es,
    handleFileUpload env (Some file) w
    = (Returned tt,
       mkWorld (mkState (books (ui w)) (currentBook (ui w)) false
                        (searchQuery (ui w)) (showOnlyMarked (ui w))
                        EmptyString)
               (db w)
               (trace w ++ es ++ [Console LogUploadFailed;
                                  Alert MsgCannotAddBook]))
    ∧ (∀ m, Alert m ∉ es)
    ∧ Call_getAllBooks ∉ es.
Proof.
  intros Hpdf Hfail. rewrite (handleFileUpload_pdf_run env file w Hpdf).
  unfold uploadBooks, uploadStore, uploadEffects. rewrite Hfail. simpl.
  exists (enrichmentEffects env file). split; [done|].
  unfold enrichmentEffects.
  destruct (thumbnailOf env file); destruct (textOf env file) as [text|];
    try destruct (JsString.truthy text);
    try destruct (summaryOf env text); simpl;
    (split; [intros m H|intros H]);
    repeat (apply elem_of_cons in H as [H|H]; [discriminate H|]);
    by apply elem_of_nil in H.
Qed.

(** X3. When the write succeeds and the reload fails, the record is in
    the store, the list the view holds is the old one, the failure is
    logged and no alert is raised. *)
Theorem upload_reload_failure_is_silent (env : Env) (file : File) (w : World) :
  file_type file = pdfMime →
  storeWriteFails env = false → storeReadFails env = true →
  ∃ es,
    handleFileUpload env (Some file) w
    = (Returned tt,
       mkWorld (mkState (books (ui w)) (currentBook (ui w)) false
                        (searchQuery (ui w)) (showOnlyMarked (ui w))
                        EmptyString)
               (Store.saveBook (uploaded env file) (db w))
               (trace w ++ es ++ [Call_getAllBooks;
                                  Console LogLoadLibraryFailed]))
    ∧ (∀ m, Alert m ∉ es).
Proof.
  intros Hpdf Hw Hr. rewrite (handleFileUpload_pdf_run env file w Hpdf).
  unfold uploadBooks, uploadStore, uploadEffects. rewrite Hw, Hr. simpl.
  exists (enrichmentEffects env file). split; [done|].
  unfold enrichmentEffects.
  destruct (thumbnailOf env file); destruct (textOf env file) as [text|];
    try destruct (JsString.truthy text);
    try destruct (summaryOf env text); simpl;
    intros m H;
    repeat (apply elem_of_cons in H as [H|H]; [discriminate H|]);
    by apply elem_of_nil in H.
Qed.

(** X4. The upload handler never throws and never leaves the busy flag
    on: whatever is selected and whatever the services and the store do,
    it returns, the busy flag is off if it was off, and the current book,
    the query and the marked-only toggle are as before. *)
Theorem upload_always_settles (env : Env) (file : option File) (w : World) :
  fst (handleFileUpload env file w) = Returned tt
  ∧ (isUploading (ui w) = false →
     isUploading (ui (snd (handleFileUpload env file w))) = false)
  ∧ currentBook (ui (snd (handleFileUpload env file w))) = currentBook (ui w)
  ∧ searchQuery (ui (snd (handleFileUpload env file w))) = searchQuery (ui w)
  ∧ showOnlyMarked (ui (snd (handleFileUpload env file w)))
    = showOnlyMarked (ui w).
Proof.
  destruct file as [file|]; [|done].
  destruct (String.eqb (file_type file) pdfMime) eqn:E.
  - apply String.eqb_eq in E.
    by rewrite (handleFileUpload_pdf_run env file w E).
  - unfold handleFileUpload. by rewrite E.
Qed.

End UploadBehaviour.

(** ** The library list and titles *)

Section LibraryBehaviour.
Import App JsString.

Lemma matchesSearch_empty (b : Book) : matchesSearch EmptyString b = true.
Proof.
  unfold matchesSearch. change (toLowerCase EmptyString) with EmptyString.
  by rewrite includes_unfold, startsWith_empty.
Qed.

(** X5. With an empty query and the marked-only toggle off, every stored
    book is displayed, in the stored order. *)
Theorem empty_query_shows_all (bs : list Book) :
  filteredBooks bs EmptyString false = bs.
Proof.
  unfold filteredBooks. induction bs as [|b bs IH]; [done|].
  cbn [List.filter]. rewrite matchesSearch_empty. cbn [matchesMarked andb].
  f_equal. exact IH.
Qed.

(** X6. The number on the marked-only button is the number of books that
    button shows under an empty query; it never exceeds the number of
    stored books, and turning the toggle on only removes books from what
    a query shows. *)
Theorem markedCount_is_marked_view (bs : list Book) (query : string) :
  markedCount bs = length (filteredBooks bs EmptyString true)
  ∧ (markedCount bs ≤ length bs)%nat
  ∧ sublist (filteredBooks bs query true) (filteredBooks bs query false).
Proof.
  unfold markedCount, filteredBooks. split; [|split].
  - induction bs as [|b bs IH]; [done|].
    cbn [List.filter]. rewrite matchesSearch_empty. cbn [matchesMarked andb].
    destruct (truthyFlag (isMarked b)); simpl; [f_equal|]; exact IH.
  - apply filter_length_le.
  - induction bs as [|b bs IH]; simpl; [constructor|].
    destruct (matchesSearch query b); simpl; [|done].
    destruct (truthyFlag (isMarked b)); by constructor.
Qed.

Lemma stripExtension_unfold (s : string) :
  stripExtension s
  = if isExtension s then EmptyString
    else match s with
         | EmptyString => EmptyString
         | String c r => String c (stripExtension r)
         end.
Proof. by destruct s. Qed.

(** X9. The title is the file name with, at most, one ending cut off:
    the name is the title followed by nothing or by an extension (a dot
    and one or more characters other than dot and slash). *)
Theorem stripExtension_cuts_an_ending (name : string) :
  ∃ ending,
    name = stripExtension name +:+ ending
    ∧ (ending = EmptyString ∨ isExtension ending = true)
    ∧ (String.length (stripExtension name) ≤ String.length name)%nat.
Proof.
  induction name as [|c name (ending & Hname & Hend & Hlen)].
  - exists EmptyString. simpl. eauto.
  - rewrite (stripExtension_unfold (String c name)).
    destruct (isExtension (String c name)) eqn:E.
    + exists (String c name). split; [done|]. split; [by right|simpl; lia].
    + exists ending.
      split; [change (String c name
                      = String c (stripExtension name +:+ ending));
              f_equal; exact Hname|].
      split; [done|simpl; lia].
Qed.

End LibraryBehaviour.

(** ** The reader, further *)

Section ReaderBehaviour.
Import Reader.

Lemma hasPageElement_no_doc (s : State) (k : Z) :
  pdfDoc s = None → hasPageElement s k = false.
Proof.
  intros Hdoc. destruct (hasPageElement s k) eqn:E; [|done].
  apply hasPageElement_iff in E as (_ & [pdf Hpdf] & _). congruence.
Qed.

Lemma observerCallback_silent (k : Z) (entries : list bool) (s : State) :
  Forall (λ e, e = false) entries → observerCallback k entries s = (s, []).
Proof.
  induction 1 as [|e entries -> _ IH]; [done|]. simpl. exact IH.
Qed.

Lemma observerCallback_effects (k : Z) (entries : list bool) (s : State) :
  Forall (λ e, isInitialScroll e = false) (snd (observerCallback k entries s)).
Proof.
  revert s. induction entries as [|e entries IH]; intros s; [constructor|].
  destruct e; simpl; [|apply IH].
  specialize (IH (setCurrentPage k s)).
  destruct (observerCallback k entries (setCurrentPage k s)) as [s2 e2].
  simpl in *. by repeat constructor.
Qed.

Lemma observerCallback_done (k : Z) (entries : list bool) (s : State) :
  initialScrollDone (fst (observerCallback k entries s)) = initialScrollDone s
  ∧ showControls (fst (observerCallback k entries s)) = showControls s.
Proof.
  rewrite (proj1 (observerCallback_spec k entries s)).
  by destruct (existsb _ entries).
Qed.

Lemma run_cons (s : State) (ev : Event) (evs : list Event) :
  run s (ev :: evs)
  = (fst (run (fst (step s ev)) evs),
     snd (step s ev) ++ snd (run (fst (step s ev)) evs)).
Proof.
  simpl. destruct (step s ev) as [s1 e1]. simpl.
  by destruct (run s1 evs).
Qed.

Lemma filter_none {A} (f : A → bool) (l : list A) :
  Forall (λ x, f x = false) l → List.filter f l = [].
Proof. induction 1 as [|x l Hx _ IH]; [done|]. simpl. by rewrite Hx. Qed.

(** A step either makes no initial scroll and keeps the done flag, or
    makes the one initial scroll and sets the flag. *)
Lemma step_initialScroll (s : State) (ev : Event) :
  (List.filter isInitialScroll (snd (step s ev)) = []
   ∧ initialScrollDone (fst (step s ev)) = initialScrollDone s)
  ∨ (initialScrollDone s = false
     ∧ initialScrollDone (fst (step s ev)) = true
     ∧ length (List.filter isInitialScroll (snd (step s ev))) = 1%nat).
Proof.
  destruct ev as [pdf| |k entries|t|ok]; simpl; try (by left).
  - unfold initialScroll. simpl.
    destruct (initialScrollDone s) eqn:Hd; simpl; [by left|].
    destruct (hasPageElement _ _); simpl; [by right|by left].
  - destruct (hasPageElement s k); [|by left]. left. split.
    + apply filter_none, observerCallback_effects.
    + apply observerCallback_done.
  - left. unfold click. destruct (negb _); [done|].
    destruct (insideScrollContainer t).
    + unfold toggleControls. by destruct (_ || _).
    + destruct t; try done; simpl.
      * destruct (prevDisabled s); [done|]. unfold scrollToPage.
        by destruct (hasPageElement _ _).
      * destruct (nextDisabled s); [done|]. unfold scrollToPage.
        by destruct (hasPageElement _ _).
Qed.

(** X10. The initial scroll happens at most once in the life of a reader,
    and not at all once its done flag is set. *)
Theorem initial_scroll_at_most_once (s : State) (evs : list Event) :
  (length (List.filter isInitialScroll (snd (run s evs)))
   ≤ if initialScrollDone s then 0 else 1)%nat.
Proof.
  revert s. induction evs as [|ev evs IH]; intros s.
  - simpl. destruct (initialScrollDone s); lia.
  - rewrite run_cons. simpl snd. rewrite List.filter_app, length_app.
    specialize (IH (fst (step s ev))).
    destruct (step_initialScroll s ev) as [[-> Hd]|(Hs & Hd & ->)].
    + rewrite Hd in IH. simpl. exact IH.
    + rewrite Hd in IH. rewrite Hs. lia.
Qed.

(** Without a document a step that is not the load reaches no page. *)
Lemma step_no_doc (s : State) (ev : Event) :
  pdfDoc s = None → isLoaded ev = false →
  pdfDoc (fst (step s ev)) = None
  ∧ currentPage (fst (step s ev)) = currentPage s
  ∧ Forall (λ e, touchesDocument e = false) (snd (step s ev)).
Proof.
  intros Hdoc Hev.
  destruct ev as [pdf| |k entries|t|ok]; simpl; try done.
  - by repeat constructor.
  - by rewrite hasPageElement_no_doc.
  - unfold click. destruct (negb _); [done|].
    destruct (insideScrollContainer t).
    + unfold toggleControls. by destruct (_ || _).
    + destruct t; try done; simpl; try (by repeat constructor).
      * destruct (prevDisabled s); [done|]. unfold scrollToPage.
        by rewrite hasPageElement_no_doc.
      * destruct (nextDisabled s); [done|]. unfold scrollToPage.
        by rewrite hasPageElement_no_doc.
Qed.

(** X11. Until the document has loaded (also after a failed load) the
    reader reaches neither the pages nor the store: whatever is clicked or
    reported, nothing is scrolled, rendered or written, no page is
    mounted and the current page stays what it was. *)
Theorem reader_idle_without_document (s : State) (evs : list Event) :
  pdfDoc s = None → Forall (λ ev, isLoaded ev = false) evs →
  pdfDoc (fst (run s evs)) = None
  ∧ pageNumbers (fst (run s evs)) = []
  ∧ currentPage (fst (run s evs)) = currentPage s
  ∧ Forall (λ e, touchesDocument e = false) (snd (run s evs)).
Proof.
  intros Hdoc Hevs.
  enough (pdfDoc (fst (run s evs)) = None
          ∧ currentPage (fst (run s evs)) = currentPage s
          ∧ Forall (λ e, touchesDocument e = false) (snd (run s evs)))
    as (H1 & H2 & H3).
  { repeat split; try done. unfold pageNumbers. rewrite H1.
    by destruct (loading _). }
  revert s Hdoc. induction Hevs as [|ev evs Hev _ IH]; intros s Hdoc.
  - by repeat split.
  - rewrite run_cons. simpl fst. simpl snd.
    destruct (step_no_doc s ev Hdoc Hev) as (Hd & Hc & He).
    destruct (IH _ Hd) as (H1 & H2 & H3).
    split; [done|]. split; [congruence|]. by apply Forall_app.
Qed.

(** X12. A book whose [lastPage] is a page of the document opens there:
    when the document has loaded, the reader scrolls to that page, once,
    and it is the current page. *)
Theorem reader_opens_at_last_page (b : Book) (pdf : PdfDoc) (n : Z) :
  lastPage b = Some n → 1 ≤ n ≤ doc_numPages pdf →
  step (init b) (Loaded pdf)
  = (setInitialScrollDone (loadPdf_resolved pdf (init b)),
     [ScrollIntoView n false])
  ∧ currentPage (fst (step (init b) (Loaded pdf))) = n.
Proof.
  intros Hlast Hn.
  assert (lastPageOr1 b = n) as Hone.
  { unfold lastPageOr1. rewrite Hlast.
    destruct (n =? 0) eqn:E; [apply Z.eqb_eq in E; lia|done]. }
  assert (hasPageElement (loadPdf_resolved pdf (init b)) n = true) as Hel.
  { apply hasPageElement_iff. simpl. split; [done|]. split; [by eexists|lia]. }
  simpl. unfold initialScroll, initialScrollTarget. simpl.
  rewrite Hone, Hel. simpl. by rewrite Hone.
Qed.

(** X13. A stored [lastPage] that is not a page of the document (negative,
    or beyond the last page) is not corrected: the reader does not scroll
    on load and shows that number as the current page.  Beyond the last
    page the next-page button is disabled and the previous-page button
    scrolls to the last page. *)
Theorem reader_keeps_stale_last_page (b : Book) (pdf : PdfDoc) (n : Z) :
  lastPage b = Some n → n < 0 ∨ 0 ≤ doc_numPages pdf < n →
  step (init b) (Loaded pdf) = (loadPdf_resolved pdf (init b), [])
  ∧ currentPage (fst (step (init b) (Loaded pdf))) = n
  ∧ (1 ≤ doc_numPages pdf < n →
     nextDisabled (loadPdf_resolved pdf (init b)) = true
     ∧ step (loadPdf_resolved pdf (init b)) (Click BtnPrev)
       = (loadPdf_resolved pdf (init b),
          [ScrollIntoView (doc_numPages pdf) true])).
Proof.
  intros Hlast Hn.
  assert (lastPageOr1 b = n) as Hone.
  { unfold lastPageOr1. rewrite Hlast.
    destruct (n =? 0) eqn:E; [apply Z.eqb_eq in E; lia|done]. }
  assert (hasPageElement (loadPdf_resolved pdf (init b)) n = false) as Hel.
  { destruct (hasPageElement _ n) eqn:E; [|done].
    apply hasPageElement_iff in E. simpl in E. lia. }
  split; [|split].
  - simpl. unfold initialScroll, initialScrollTarget. simpl.
    by rewrite Hone, Hel.
  - simpl. unfold initialScroll, initialScrollTarget. simpl.
    by rewrite Hone, Hel.
  - intros Hbeyond.
    assert (currentPage (loadPdf_resolved pdf (init b)) = n) as Hcur
      by exact Hone.
    assert (numPages (loadPdf_resolved pdf (init b)) = doc_numPages pdf)
      as Hnum by reflexivity.
    assert (hasPageElement (loadPdf_resolved pdf (init b))
                           (doc_numPages pdf) = true) as Hlast_el.
    { apply hasPageElement_iff. simpl.
      split; [done|]. split; [by eexists|lia]. }
    remember (loadPdf_resolved pdf (init b)) as s1 eqn:Hs1. clear Hs1.
    split.
    + unfold nextDisabled. rewrite Hcur, Hnum. apply Z.geb_le. lia.
    + change (step s1 (Click BtnPrev)) with (click BtnPrev s1).
      unfold click, present, insideScrollContainer, prevDisabled.
      cbn [negb]. rewrite Hcur.
      destruct (n <=? 1) eqn:E; [apply Z.leb_le in E; lia|].
      unfold scrollToPage, scrollTarget. rewrite Hnum.
      replace (Z.max 1 (Z.min (n - 1) (doc_numPages pdf)))
        with (doc_numPages pdf) by lia.
      by rewrite Hlast_el.
Qed.

(** X14. Between the first and the last page the navigation buttons
    scroll to the neighbouring page and change nothing in the reader:
    the current page moves only when a page reports itself visible. *)
Theorem nav_buttons_scroll_to_neighbour (s : State) :
  loading s = false → is_Some (pdfDoc s) →
  (1 < currentPage s ≤ numPages s →
   step s (Click BtnPrev) = (s, [ScrollIntoView (currentPage s - 1) true]))
  ∧ (1 ≤ currentPage s < numPages s →
     step s (Click BtnNext) = (s, [ScrollIntoView (currentPage s + 1) true])).
Proof.
  intros Hload Hdoc. split; intros Hcur; simpl; unfold click; simpl.
  - unfold prevDisabled.
    destruct (currentPage s <=? 1) eqn:E; [apply Z.leb_le in E; lia|].
    unfold scrollToPage, scrollTarget.
    replace (Z.max 1 (Z.min (currentPage s - 1) (numPages s)))
      with (currentPage s - 1) by lia.
    assert (hasPageElement s (currentPage s - 1) = true) as ->; [|done].
    apply hasPageElement_iff. repeat split; [done..|lia|lia].
  - unfold nextDisabled.
    destruct (currentPage s >=? numPages s) eqn:E; [apply Z.geb_le in E; lia|].
    unfold scrollToPage, scrollTarget.
    replace (Z.max 1 (Z.min (currentPage s + 1) (numPages s)))
      with (currentPage s + 1) by lia.
    assert (hasPageElement s (currentPage s + 1) = true) as ->; [|done].
    apply hasPageElement_iff. repeat split; [done..|lia|lia].
Qed.

Lemma setShowControls_twice (s : State) :
  setShowControls (negb (negb (showControls s)))
                  (setShowControls (negb (showControls s)) s) = s.
Proof. destruct s as [? ? ? ? ? v ? ?]. unfold setShowControls. simpl. by destruct v. Qed.

(** X15. Two taps on the same spot of the scroll container or of a page
    bring the reader back exactly to the state it was in. *)
Theorem double_tap_restores (s : State) (t : Target) :
  present s t = true → togglingClick (Click t) = true →
  fst (step (fst (step s (Click t))) (Click t)) = s.
Proof.
  intros Hp Ht. simpl in Ht.
  pose proof (click_showControls s t Hp) as H1. rewrite Ht in H1.
  rewrite H1. cbn [fst].
  assert (present (setShowControls (negb (showControls s)) s) t = true) as Hp'
    by (by destruct t).
  pose proof (click_showControls _ t Hp') as H2. rewrite Ht in H2.
  rewrite H2. cbn [fst]. apply setShowControls_twice.
Qed.

Lemma step_showControls (s : State) (ev : Event) :
  togglingClick ev = false →
  showControls (fst (step s ev)) = showControls s.
Proof.
  intros Hev. destruct ev as [pdf| |k entries|t|ok]; simpl; try done.
  - unfold initialScroll.
    destruct (_ && _); [|done]. by destruct (hasPageElement _ _).
  - destruct (hasPageElement s k); [|done]. apply observerCallback_done.
  - simpl in Hev. unfold click. destruct (negb _); [done|].
    destruct (insideScrollContainer t).
    + unfold toggleControls. by rewrite Hev.
    + destruct t; try done; simpl.
      * by destruct (prevDisabled s).
      * by destruct (nextDisabled s).
Qed.

(** X16. Only a tap on the scroll container or on a page shows or hides
    the controls: loading, page visibility, zooming, navigating and
    closing leave the controls flag as it is. *)
Theorem controls_change_only_by_tap (s : State) (evs : list Event) :
  Forall (λ ev, togglingClick ev = false) evs →
  showControls (fst (run s evs)) = showControls s.
Proof.
  intros Hevs. revert s. induction Hevs as [|ev evs Hev _ IH]; intros s.
  - done.
  - rewrite run_cons. simpl fst. by rewrite IH, step_showControls.
Qed.

(** X17. An observer callback none of whose entries intersects (a page
    leaving the viewport) changes nothing and writes nothing. *)
Theorem leaving_viewport_is_silent
    (s : State) (k : Z) (entries : list bool) :
  Forall (λ e, e = false) entries →
  step s (Intersect k entries) = (s, []).
Proof.
  intros H. simpl. destruct (hasPageElement s k); [|done].
  by apply observerCallback_silent.
Qed.

Lemma sameFloat_refl (x : spec_float) : sameFloat x x = true.
Proof.
  destruct x as [a|a| |a m e]; simpl; try done.
  - by destruct a.
  - by destruct a.
  - rewrite Pos.eqb_refl, Z.eqb_refl. by destruct a.
Qed.

Lemma sameFloat_iff (x y : spec_float) (v : bool) :
  Bool.eqb (sameFloat x y) v = true → (x = y ↔ v = true).
Proof.
  intros H. apply Bool.eqb_prop in H as <-. split.
  - intros ->. apply sameFloat_refl.
  - apply sameFloat_eq.
Qed.

Lemma zoomOrbit_labels (x : spec_float) :
  x ∈ zoomOrbit → labelCheck x = true.
Proof.
  assert (forallb labelCheck zoomOrbit = true) as H by (vm_compute; reflexivity).
  rewrite forallb_forall in H. intros Hx. by apply H, list_elem_of_In.
Qed.

(** X18. The zoom label of the footer is always a multiple of 20 between
    40 and 300, and each zoom step moves it by exactly 20, stopping at 300
    and at 40, although the scale itself drifts off the decimal grid. *)
Theorem zoom_label_steps_by_twenty (b : Book) (evs : list Event) :
  ∃ p, zoomPercent (fst (run (init b) evs)) = Some p
       ∧ p mod 20 = 0 ∧ 40 ≤ p ≤ 300
       ∧ zoomPercent (zoomIn (fst (run (init b) evs)))
         = Some (Z.min (p + 20) 300)
       ∧ zoomPercent (zoomOut (fst (run (init b) evs)))
         = Some (Z.max (p - 20) 40).
Proof.
  pose proof (zoomOrbit_labels _ (run_scale_on_orbit b evs)) as Hc.
  unfold labelCheck, labelOf in Hc. unfold zoomPercent.
  change (scale (zoomIn (fst (run (init b) evs))))
    with (zoomInUpdater (scale (fst (run (init b) evs)))).
  change (scale (zoomOut (fst (run (init b) evs))))
    with (zoomOutUpdater (scale (fst (run (init b) evs)))).
  destruct (Num.round (Num.mul (scale (fst (run (init b) evs))) _))
    as [p|]; [|done].
  destruct (Num.round (Num.mul (zoomInUpdater _) _)) as [up|]; [|done].
  destruct (Num.round (Num.mul (zoomOutUpdater _) _)) as [down|]; [|done].
  repeat (apply andb_true_iff in Hc as [Hc ?]).
  exists p. split; [done|].
  split; [by apply Z.eqb_eq|]. split; [lia|].
  split; f_equal; by apply Z.eqb_eq.
Qed.

(** X19. Zooming in never lowers the scale and zooming out never raises
    it; a zoom step leaves the scale where it is exactly at the bound,
    3.0 for zooming in and 0.4 for zooming out. *)
Theorem zoom_steps_are_monotone (b : Book) (evs : list Event) :
  Num.leb (scale (fst (run (init b) evs)))
          (scale (zoomIn (fst (run (init b) evs)))) = true
  ∧ Num.leb (scale (zoomOut (fst (run (init b) evs))))
            (scale (fst (run (init b) evs))) = true
  ∧ (scale (zoomIn (fst (run (init b) evs))) = scale (fst (run (init b) evs))
     ↔ scale (fst (run (init b) evs)) = Num.lit_3_0)
  ∧ (scale (zoomOut (fst (run (init b) evs))) = scale (fst (run (init b) evs))
     ↔ scale (fst (run (init b) evs)) = Num.lit_0_4).
Proof.
  pose proof (zoomOrbit_labels _ (run_scale_on_orbit b evs)) as Hc.
  unfold labelCheck in Hc.
  change (scale (zoomIn (fst (run (init b) evs))))
    with (zoomInUpdater (scale (fst (run (init b) evs)))).
  change (scale (zoomOut (fst (run (init b) evs))))
    with (zoomOutUpdater (scale (fst (run (init b) evs)))).
  destruct (labelOf (scale _)); [|done].
  destruct (labelOf (zoomInUpdater _)); [|done].
  destruct (labelOf (zoomOutUpdater _)); [|done].
  apply andb_true_iff in Hc as [Hc Hout].
  apply andb_true_iff in Hc as [Hc Hin].
  apply andb_true_iff in Hc as [Hc Hdown].
  apply andb_true_iff in Hc as [_ Hup].
  split; [done|]. split; [done|]. split.
  - rewrite (sameFloat_iff _ _ _ Hin). split.
    + apply sameFloat_eq.
    + intros ->. apply sameFloat_refl.
  - rewrite (sameFloat_iff _ _ _ Hout). split.
    + apply sameFloat_eq.
    + intros ->. apply sameFloat_refl.
Qed.

End ReaderBehaviour.

(** ** The render life cycle, further *)

Section RenderBehaviour.
Import PdfPage.

(** X20. When every call of [renderPage] gets its page before the next
    call starts, the page renders one task at a time: at most one task
    draws, the ref holds the newest task, and once nothing is drawing the
    canvas shows the last requested scale.  This holds whether or not the
    library guards its canvas. *)
Theorem serial_renders_are_exclusive (x : bool) (steps : list SerialStep) :
  (runningCount (run x (serialEvents steps)) ≤ 1)%nat
  ∧ awaitingPage (run x (serialEvents steps)) = []
  ∧ (tasks (run x (serialEvents steps)) ≠ [] →
     renderTaskRef (run x (serialEvents steps))
     = Some (length (tasks (run x (serialEvents steps))) - 1)%nat)
  ∧ (quiescent (run x (serialEvents steps)) = true →
     lastRequested (serialEvents steps) ≠ None →
     painted (run x (serialEvents steps))
     = lastRequested (serialEvents steps)).
Proof.
  destruct (serial_runs_keep_inv x steps) as (Hw & H).
  unfold quiescent, runningCount. rewrite Hw.
  destruct H as [(Ht & _ & Hl)|(olds & t & Ht & Hold & Hr & Hl & Hst)].
  - rewrite Ht. simpl. split; [lia|]. split; [done|]. split; [done|].
    intros _ Hne. by rewrite Hl in Hne.
  - rewrite Ht, List.filter_app, (filter_not_running _ Hold), Hr, length_app.
    simpl. split.
    { destruct (isRunning t); simpl; lia. }
    split; [done|].
    split. { intros _. f_equal. rewrite length_app. simpl. lia. }
    destruct Hst as [Hrun|[Hfin Hp]].
    + unfold isRunning. rewrite Hrun. simpl. done.
    + intros _ _. by rewrite Hp, Hl.
Qed.

End RenderBehaviour.

(** ** The card of a new record *)

Section CardBehaviour.
Import App.

(** X24. The card of a book just uploaded shows the title, no page label
    and no marked badge; it shows the thumbnail when the service returned
    a non-empty one and the placeholder otherwise. *)
Theorem uploaded_book_card (env : Env) (file : File) (w : World) :
  file_type file = pdfMime → storeWriteFails env = false →
  ∃ b, db (snd (handleFileUpload env (Some file) w)) !! freshId env = Some b
       ∧ BookCard.heading (BookCard.render b)
         = JsString.stripExtension (file_name file)
       ∧ BookCard.pageLabel (BookCard.render b) = None
       ∧ BookCard.markedBadge (BookCard.render b) = false
       ∧ BookCard.preview (BookCard.render b)
         = match thumbnailOf env file with
           | Returned src =>
               if JsString.truthy src then BookCard.Image src
               else BookCard.NoPreview
           | Thrown => BookCard.NoPreview
           end.
Proof.
  intros Hpdf Hsave. rewrite (handleFileUpload_pdf_run env file w Hpdf).
  unfold uploadStore. rewrite Hsave. simpl.
  exists (uploaded env file). split; [apply saved_lookup|].
  unfold BookCard.render, uploaded, thumbnailResult. simpl.
  by destruct (thumbnailOf env file).
Qed.

End CardBehaviour.

(** ** The further statements at sample inputs *)

Section MoreSamples.
Import App Reader.

Lemma upload_calls_in_order_witness :
  ∃ es, trace (snd (handleFileUpload Sample.env (Some Sample.pdf) Sample.world))
        = es
        ∧ List.filter isCall es
          = [Call_generateThumbnail Sample.pdf;
             Call_extractTextForSummary Sample.pdf;
             Call_getBookSummary "Chapter one";
             Call_saveBook (uploaded Sample.env Sample.pdf);
             Call_getAllBooks].
Proof.
  destruct (upload_calls_in_order Sample.env Sample.pdf Sample.world eq_refl)
    as (es & Htrace & Hcalls).
  exists es. split; [exact Htrace|exact Hcalls].
Defined.

Lemma upload_write_failure_alerts_witness :
  ∃ (es : list App.Effect) w',
    handleFileUpload Sample.envWriteFails (Some Sample.pdf) Sample.world
    = (Returned tt, w')
    ∧ db w' = ∅ ∧ books (ui w') = []
    ∧ trace w' = es ++ [Console LogUploadFailed; Alert MsgCannotAddBook].
Proof.
  destruct (upload_write_failure_alerts Sample.envWriteFails Sample.pdf
              Sample.world eq_refl eq_refl) as (es & Hrun & _).
  exists es. eexists. split; [exact Hrun|]. by repeat split.
Defined.

Lemma upload_reload_failure_is_silent_witness :
  ∃ (es : list App.Effect) w',
    handleFileUpload Sample.envReadFails (Some Sample.pdf) Sample.world
    = (Returned tt, w')
    ∧ books (ui w') = []
    ∧ db w' !! freshId Sample.envReadFails
      = Some (uploaded Sample.envReadFails Sample.pdf)
    ∧ (∀ m, Alert m ∉ es).
Proof.
  destruct (upload_reload_failure_is_silent Sample.envReadFails Sample.pdf
              Sample.world eq_refl eq_refl eq_refl) as (es & Hrun & Hquiet).
  exists es. eexists. split; [exact Hrun|].
  split; [done|]. split; [apply saved_lookup|exact Hquiet].
Defined.

Lemma reader_idle_without_document_witness :
  snd (run (init Sample.book)
           [Click BtnNext; Intersect 1 [true]; LoadFailed; Click BtnZoomIn])
  = [ConsoleError]
  ∧ currentPage (fst (run (init Sample.book)
           [Click BtnNext; Intersect 1 [true]; LoadFailed; Click BtnZoomIn]))
    = 1.
Proof.
  destruct (reader_idle_without_document (init Sample.book)
              [Click BtnNext; Intersect 1 [true]; LoadFailed; Click BtnZoomIn]
              eq_refl ltac:(repeat constructor))
    as (_ & _ & Hcur & _).
  split; [reflexivity|exact Hcur].
Defined.

Lemma reader_opens_at_last_page_witness :
  snd (step (init (Sample.bookAtPage 2)) (Loaded (mkDoc 3)))
  = [ScrollIntoView 2 false].
Proof.
  destruct (reader_opens_at_last_page (Sample.bookAtPage 2) (mkDoc 3) 2
              eq_refl ltac:(simpl; lia)) as [Hstep _].
  by rewrite Hstep.
Defined.

Lemma reader_keeps_stale_last_page_witness :
  step (init (Sample.bookAtPage 9)) (Loaded (mkDoc 3))
  = (loadPdf_resolved (mkDoc 3) (init (Sample.bookAtPage 9)), [])
  ∧ currentPage (fst (step (init (Sample.bookAtPage 9)) (Loaded (mkDoc 3))))
    = 9.
Proof.
  destruct (reader_keeps_stale_last_page (Sample.bookAtPage 9) (mkDoc 3) 9
              eq_refl ltac:(right; simpl; lia)) as (Hstep & Hcur & _).
  split; [exact Hstep|exact Hcur].
Defined.

Lemma nav_buttons_scroll_to_neighbour_witness :
  step (fst (step Sample.reader (Intersect 2 [true]))) (Click BtnPrev)
  = (fst (step Sample.reader (Intersect 2 [true])), [ScrollIntoView 1 true]).
Proof.
  destruct (nav_buttons_scroll_to_neighbour
              (fst (step Sample.reader (Intersect 2 [true])))
              eq_refl ltac:(by eexists)) as [Hprev _].
  apply Hprev. simpl. lia.
Defined.

Lemma double_tap_restores_witness :
  fst (step (fst (step Sample.reader (Click (InsidePage 2))))
            (Click (InsidePage 2)))
  = Sample.reader.
Proof.
  exact (double_tap_restores Sample.reader (InsidePage 2) eq_refl eq_refl).
Defined.

Lemma controls_change_only_by_tap_witness :
  showControls (fst (run Sample.reader
                         [Click BtnZoomIn; Intersect 2 [true];
                          Click BtnNext; Click PagesColumn]))
  = true.
Proof.
  exact (controls_change_only_by_tap Sample.reader
           [Click BtnZoomIn; Intersect 2 [true]; Click BtnNext;
            Click PagesColumn]
           ltac:(repeat constructor)).
Defined.

Lemma leaving_viewport_is_silent_witness :
  step Sample.reader (Intersect 2 [false; false]) = (Sample.reader, []).
Proof.
  exact (leaving_viewport_is_silent Sample.reader 2 [false; false]
           ltac:(repeat constructor)).
Defined.

Lemma uploaded_book_card_witness :
  ∃ b, db (snd (handleFileUpload Sample.env (Some Sample.pdf) Sample.world))
         !! freshId Sample.env = Some b
       ∧ BookCard.heading (BookCard.render b) = "Clean Code"%string
       ∧ BookCard.preview (BookCard.render b) = BookCard.NoPreview.
Proof.
  destruct (uploaded_book_card Sample.env Sample.pdf Sample.world
              eq_refl eq_refl) as (b & Hdb & Hh & _ & _ & Hp).
  exists b. split; [exact Hdb|]. split; [exact Hh|exact Hp].
Defined.

End MoreSamples.
